(** * Encuesta de seguridad del mercado: aggregation, export and login

    A shallow embedding of the survey application:
    - [src/components/SurveyForm.js]  (the submission normaliser),
    - [src/components/AdminPanel.js]  (bulk fetch, statistics, CSV export,
      clear), and
    - [src/backend/server.js]         (the login handler),
    followed by the properties of the statistics/export pipeline.

    JavaScript strings are modelled by Rocq [string]s holding their UTF-8
    bytes.  Every character the code inspects (the separators [", "] and
    ["; "], the double quote, digits, signs) is ASCII, and an ASCII byte
    never occurs inside a multi-byte UTF-8 sequence, so searching and
    replacing on bytes agrees with doing it on UTF-16 code units. *)

From Stdlib Require Import String Ascii List ZArith Lia Bool Arith.
From Stdlib Require Import Permutation Sorted SpecFloat DecimalString.
Import ListNotations.
Local Open Scope string_scope.

(* ================================================================= *)
(** ** JavaScript built-ins used by the application *)

Module JS.

(** The double-quote character and the line feed. *)
Definition dq : ascii := "034"%char.
Definition lf : ascii := "010"%char.
Definition DQ : string := String dq EmptyString.
Definition LF : string := String lf EmptyString.

(** A JavaScript value that is either a string or [undefined]
    (an absent field of a JSON document). *)
Definition jsstring := option string.

(** [ToString] as applied by template literals and property keys. *)
Definition toString (v : jsstring) : string :=
  match v with Some s => s | None => "undefined" end.

(** Truthiness of a string-or-undefined value: the empty string and
    [undefined] are falsy. *)
Definition truthy (v : jsstring) : bool :=
  match v with
  | Some EmptyString | None => false
  | Some _ => true
  end.

(** [v || d] for a string-or-undefined [v] and a string default [d]. *)
Definition orElse (v : jsstring) (d : string) : string :=
  match v with
  | Some (String c s) => String c s
  | _ => d
  end.

(** [Array.prototype.join(sep)] on an array of strings. *)
Definition join (sep : string) (xs : list string) : string :=
  String.concat sep xs.

(** [String.prototype.split(sep)] for a non-empty separator: the string is
    scanned from the left, every match of [sep] closes the current token and
    the scan resumes after the match.  [skip] counts the characters of a
    match still to be dropped.  The result is never empty: splitting the
    empty string gives one empty token. *)
Fixpoint split_from (sep : string) (skip : nat) (s : string) : list string :=
  match s with
  | EmptyString => [EmptyString]
  | String c s' =>
      match skip with
      | S k => split_from sep k s'
      | O =>
          if prefix sep s
          then EmptyString :: split_from sep (String.length sep - 1) s'
          else match split_from sep 0 s' with
               | t :: ts => String c t :: ts
               | [] => [String c EmptyString]
               end
      end
  end.

Definition split (sep s : string) : list string := split_from sep 0 s.

(** [String.prototype.replace] with the global pattern matching one double
    quote and a replacement of two: every double quote is doubled. *)
Fixpoint escapeQuotes (s : string) : string :=
  match s with
  | EmptyString => EmptyString
  | String c s' =>
      if Ascii.eqb c dq then String dq (String dq (escapeQuotes s'))
      else String c (escapeQuotes s')
  end.

(* ----------------------------------------------------------------- *)
(** *** Numbers *)

(** The numbers the statistics compute with are [NaN] and integer-valued
    doubles.  [Num z] stands for the double of value [z]; the sign of zero
    is not tracked (the only negative zero the code can produce is absorbed
    by the sum that starts at [+0]).  Doubles carry 53 significant bits:
    [round53] rounds an integer to the nearest representable one, ties to
    even, which is what [+] and [*] of IEEE 754 do on integer operands
    (overflow to infinity, beyond [2^1024], is not modelled). *)
Inductive number := NaN | Num (z : Z).

Definition round53 (z : Z) : Z :=
  let a := Z.abs z in
  if (a <=? 2 ^ 53)%Z then z
  else
    let k := (Z.log2 a - 52)%Z in
    let q := Z.shiftr a k in
    let r := Z.land a (Z.ones k) in
    let half := Z.shiftl 1 (k - 1) in
    let up := orb (half <? r)%Z (andb (half =? r)%Z (Z.odd q)) in
    (Z.sgn z * Z.shiftl (if up then q + 1 else q) k)%Z.

Definition add (a b : number) : number :=
  match a, b with
  | Num x, Num y => Num (round53 (x + y))
  | _, _ => NaN
  end.

Definition mul (a b : number) : number :=
  match a, b with
  | Num x, Num y => Num (round53 (x * y))
  | _, _ => NaN
  end.

(** The double nearest to an integer and the IEEE 754 quotient, on the
    Standard Library's specification of binary64. *)
Definition prec : Z := 53.
Definition emax : Z := 1024.
Definition double_of_Z (z : Z) : spec_float := binary_normalize prec emax z 0 false.

Definition div (a b : number) : spec_float :=
  match a, b with
  | Num x, Num y => SFdiv prec emax (double_of_Z x) (double_of_Z y)
  | _, _ => S754_nan
  end.

(** Decimal digits of a natural number. *)
Definition digits (n : Z) : string := NilZero.string_of_uint (N.to_uint (Z.to_N n)).

(** [Number.prototype.toFixed(1)].  For a finite [x] of magnitude below
    [10^21] the result is [n / 10] written with one decimal, where [n] is
    the integer nearest to [10 * |x|], the larger one on a tie, with a
    leading minus sign when [x < 0].  (At [10^21] and above the method
    switches to exponent notation; no quotient of a safe integer by an
    array length reaches it and that branch is not modelled.) *)
Definition tenths (m e : Z) : Z :=
  if (0 <=? e)%Z then (10 * m * 2 ^ e)%Z
  else ((20 * m + 2 ^ (- e)) / 2 ^ (- e + 1))%Z.

Definition toFixed1 (x : spec_float) : string :=
  match x with
  | S754_nan => "NaN"
  | S754_infinity false => "Infinity"
  | S754_infinity true => "-Infinity"
  | S754_zero _ => "0.0"
  | S754_finite s m e =>
      let n := tenths (Z.pos m) e in
      (if s then "-" else "") ++ digits (n / 10) ++ "." ++ digits (n mod 10)
  end.

(* ----------------------------------------------------------------- *)
(** *** parseInt *)

Definition code (c : ascii) : nat := nat_of_ascii c.

(** One-byte white space: TAB, LF, VT, FF, CR, SP. *)
Definition ws1 (c : ascii) : bool :=
  let n := code c in
  ((9 <=? n) && (n <=? 13) || (n =? 32))%nat.

(** Two-byte white space: U+00A0. *)
Definition ws2 (c1 c2 : ascii) : bool :=
  ((code c1 =? 194) && (code c2 =? 160))%nat.

(** Three-byte white space: U+1680, U+2000..U+200A, U+2028, U+2029,
    U+202F, U+205F, U+3000, U+FEFF. *)
Definition ws3 (c1 c2 c3 : ascii) : bool :=
  let a := code c1 in let b := code c2 in let c := code c3 in
  ((a =? 225) && (b =? 154) && (c =? 128)
   || (a =? 226) && (b =? 128)
        && ((128 <=? c) && (c <=? 138) || (c =? 168) || (c =? 169) || (c =? 175))
   || (a =? 226) && (b =? 129) && (c =? 159)
   || (a =? 227) && (b =? 128) && (c =? 128)
   || (a =? 239) && (b =? 187) && (c =? 191))%nat.

(** Leading white space is dropped. *)
Fixpoint trimStart (s : string) : string :=
  match s with
  | String c1 s1 =>
      if ws1 c1 then trimStart s1
      else match s1 with
           | String c2 s2 =>
               if ws2 c1 c2 then trimStart s2
               else match s2 with
                    | String c3 s3 => if ws3 c1 c2 c3 then trimStart s3 else s
                    | EmptyString => s
                    end
           | EmptyString => s
           end
  | EmptyString => s
  end.

(** The value of a digit in radix [R], if it is one. *)
Definition digitValue (R : Z) (c : ascii) : option Z :=
  let n := Z.of_nat (code c) in
  let v := if ((48 <=? n) && (n <=? 57))%Z then Some (n - 48)%Z
           else if ((97 <=? n) && (n <=? 122))%Z then Some (n - 87)%Z
           else if ((65 <=? n) && (n <=? 90))%Z then Some (n - 55)%Z
           else None in
  match v with
  | Some d => if (d <? R)%Z then Some d else None
  | None => None
  end.

(** The longest prefix of radix-[R] digits, read as an integer; [acc] is
    [None] until a digit has been seen. *)
Fixpoint parseDigits (R : Z) (acc : option Z) (s : string) : option Z :=
  match s with
  | EmptyString => acc
  | String c s' =>
      match digitValue R c with
      | Some d =>
          parseDigits R (Some (match acc with Some a => a * R + d | None => d end)%Z) s'
      | None => acc
      end
  end.

(** [parseInt(s)] with no radix argument: white space, an optional sign,
    an optional [0x] or [0X] prefix selecting radix 16, then digits.  No
    digit at all gives [NaN].  (Beyond 20 significant decimal digits an
    engine may approximate; the model rounds the exact integer.) *)
Definition parseInt (s : string) : number :=
  let s0 := trimStart s in
  let '(neg, s1) :=
    match s0 with
    | String "-" r => (true, r)
    | String "+" r => (false, r)
    | _ => (false, s0)
    end in
  let '(R, s2) :=
    match s1 with
    | String "0" (String "x" r) => (16, r)
    | String "0" (String "X" r) => (16, r)
    | _ => (10, s1)
    end%Z in
  match parseDigits R None s2 with
  | None => NaN
  | Some z => Num (round53 (if neg then - z else z))
  end.

(* ----------------------------------------------------------------- *)
(** *** Plain objects used as counters *)

(** The three statistics objects are created by the literal [{}], so they
    inherit from [Object.prototype].  What a counter holds under a key is
    either a number, or, when the first read of the key found an inherited
    member, text: [VText k n] is the string conversion of the member
    [Object.prototype[k]] followed by [n] characters [1] (adding [1] to an
    object or to a string concatenates). *)
Inductive value :=
| VNum (n : nat)
| VText (k : string) (n : nat).

(** An object is the list of its own properties in creation order. *)
Definition object := list (string * value).

(** The own property names of [Object.prototype]. *)
Definition prototypeKeys : list string :=
  ["constructor"; "__defineGetter__"; "__defineSetter__"; "hasOwnProperty";
   "__lookupGetter__"; "__lookupSetter__"; "isPrototypeOf";
   "propertyIsEnumerable"; "toString"; "valueOf"; "__proto__";
   "toLocaleString"].

Definition inherited (k : string) : bool :=
  existsb (String.eqb k) prototypeKeys.

Fixpoint own (o : object) (k : string) : option value :=
  match o with
  | [] => None
  | (k', v) :: o' => if String.eqb k' k then Some v else own o' k
  end.

(** [(o[k] || 0) + 1]: an own number is incremented (a zero would be
    falsy and restart at one), own text gets a [1] appended, an inherited
    member is turned into text, and a key that is found nowhere starts at
    one. *)
Definition next (o : object) (k : string) : value :=
  match own o k with
  | Some (VNum n) => VNum (n + 1)
  | Some (VText k' n) => VText k' (n + 1)
  | None => if inherited k then VText k 1 else VNum 1
  end.

(** Ordinary assignment [o[k] = v] of a primitive: an existing own
    property keeps its place, a new one is created last. *)
Fixpoint put (o : object) (k : string) (v : value) : object :=
  match o with
  | [] => [(k, v)]
  | (k', v') :: o' =>
      if String.eqb k' k then (k', v) :: o' else (k', v') :: put o' k v
  end.

(** [o[k] = v] on an object inheriting from [Object.prototype]: the key
    [__proto__] reaches the inherited setter, which ignores a primitive;
    the other inherited members are writable data properties, so
    assignment creates an own property as for any other key. *)
Definition assign (o : object) (k : string) (v : value) : object :=
  if String.eqb k "__proto__" then o else put o k v.

(** [o[k] = (o[k] || 0) + 1]. *)
Definition bump (o : object) (k : string) : object := assign o k (next o k).

(** An array index is the canonical decimal numeral of an integer from
    [0] to [2^32 - 2]. *)
Definition isDigit (c : ascii) : bool :=
  ((48 <=? code c) && (code c <=? 57))%nat.

Fixpoint allDigits (s : string) : bool :=
  match s with
  | EmptyString => true
  | String c s' => isDigit c && allDigits s'
  end.

Definition arrayIndex (k : string) : option Z :=
  match k with
  | EmptyString => None
  | String c r =>
      if allDigits k && (negb (Ascii.eqb c "0") || String.eqb r EmptyString)
           && (String.length k <=? 10)%nat
      then match parseDigits 10 None k with
           | Some z => if (z <=? 2 ^ 32 - 2)%Z then Some z else None
           | None => None
           end
      else None
  end.

(** Insertion of an indexed property in ascending index order. *)
Fixpoint insertIndexed (i : Z) (p : string * value)
    (l : list (Z * (string * value))) : list (Z * (string * value)) :=
  match l with
  | [] => [(i, p)]
  | (j, q) :: l' =>
      if (i <? j)%Z then (i, p) :: l else (j, q) :: insertIndexed i p l'
  end.

Fixpoint indexed (o : object) : list (Z * (string * value)) :=
  match o with
  | [] => []
  | (k, v) :: o' =>
      match arrayIndex k with
      | Some i => insertIndexed i (k, v) (indexed o')
      | None => indexed o'
      end
  end.

Definition named (o : object) : list (string * value) :=
  filter (fun p => match arrayIndex (fst p) with Some _ => false | None => true end) o.

(** [Object.entries(o)]: the array-index keys in ascending numeric order,
    then the other keys in creation order. *)
Definition entries (o : object) : list (string * value) :=
  map snd (indexed o) ++ named o.

(** [ToNumber] of a counter value: text that starts with the conversion of
    an object or of a function is not a numeric literal. *)
Definition toNumber (v : value) : number :=
  match v with
  | VNum n => Num (Z.of_nat n)
  | VText _ _ => NaN
  end.

(* ----------------------------------------------------------------- *)
(** *** Array.prototype.sort and slice *)

(** The comparator [(a, b) => b[1] - a[1]] as the sort sees it: a [NaN]
    result counts as zero. *)
Definition byCountDesc (a b : string * value) : Z :=
  match toNumber (snd b), toNumber (snd a) with
  | Num y, Num x => (y - x)%Z
  | _, _ => 0%Z
  end.

(** [Array.prototype.sort(cmp)] is stable.  For a consistent comparator
    every stable sort returns the same array, here computed by insertion;
    when the comparator is not consistent the order is left to the engine
    and the insertion order below is one admissible outcome. *)
Section Sort.
Context {A : Type} (cmp : A -> A -> Z).

Fixpoint insertSorted (x : A) (l : list A) : list A :=
  match l with
  | [] => [x]
  | y :: l' => if (cmp x y <=? 0)%Z then x :: l else y :: insertSorted x l'
  end.

Fixpoint sort (l : list A) : list A :=
  match l with
  | [] => []
  | x :: l' => insertSorted x (sort l')
  end.
End Sort.

(** [a.slice(0, n)]. *)
Definition slice0 {A : Type} (n : nat) (l : list A) : list A := firstn n l.

End JS.

(* ================================================================= *)
(** ** SurveyForm.js *)

Module SurveyForm.

(** The component state [formData]. *)
Record FormData := mkFormData {
  nombre : string;
  puesto : string;
  telefono : string;
  seguridad : string;
  problemas : list string;
  sugerencia : string;
  calificacion : string
}.

(** The values of the six check boxes. *)
Definition vocabulary : list string :=
  ["robo"; "iluminacion"; "vigilancia"; "acceso"; "emergencia"; "otros"].

(** The separator of the stored [problemas] string. *)
Definition separator : string := ", ".

(** The document posted to [/api/respuestas]; [fecha] and [hora] are the
    two renderings of the submission instant. *)
Record SurveyData := mkSurveyData {
  sd_nombre : string;
  sd_puesto : string;
  sd_telefono : string;
  sd_seguridad : string;
  sd_problemas : string;
  sd_sugerencia : string;
  sd_calificacion : string;
  sd_fecha : string;
  sd_hora : string
}.

(** [handleChange] for a check box: a checked value is appended, an
    unchecked one is filtered out. *)
Definition handleChange_checkbox (value : string) (checked : bool)
    (prev : FormData) : FormData :=
  mkFormData (nombre prev) (puesto prev) (telefono prev) (seguridad prev)
    (if checked then problemas prev ++ [value]
     else filter (fun p => negb (String.eqb p value)) (problemas prev))
    (sugerencia prev) (calificacion prev).

(** The [surveyData] object built by [handleSubmit]. *)
Definition surveyData (formData : FormData) (fecha hora : string) : SurveyData :=
  mkSurveyData (nombre formData) (puesto formData) (telefono formData)
    (seguridad formData)
    (JS.join separator (problemas formData))
    (sugerencia formData) (calificacion formData) fecha hora.

End SurveyForm.

(* ================================================================= *)
(** ** server.js *)

Module Server.

(** [new Date(...)] as far as the application looks at it: its two
    renderings in the [es-ES] locale. *)
Record Date := mkDate {
  toLocaleDateString : string;
  toLocaleTimeString : string
}.

(** A document of the [Respuesta] collection, as it is also serialised to
    the client.  Every schema field is an optional string. *)
Record Respuesta := mkRespuesta {
  _id : string;
  nombre : JS.jsstring;
  puesto : JS.jsstring;
  telefono : JS.jsstring;
  seguridad : JS.jsstring;
  problemas : JS.jsstring;
  sugerencia : JS.jsstring;
  calificacion : JS.jsstring;
  fecha : JS.jsstring;
  hora : JS.jsstring;
  createdAt : Date
}.

(** The body of [POST /api/respuestas]. *)
Record RespuestaBody := mkRespuestaBody {
  b_nombre : JS.jsstring;
  b_puesto : JS.jsstring;
  b_telefono : JS.jsstring;
  b_seguridad : JS.jsstring;
  b_problemas : JS.jsstring;
  b_sugerencia : JS.jsstring;
  b_calificacion : JS.jsstring;
  b_fecha : JS.jsstring;
  b_hora : JS.jsstring
}.

(** A document of the [User] collection. *)
Record User := mkUser {
  usuario : string;
  email : string;
  password : string;
  fechaRegistro : string
}.

(** The store: the two collections, and [failure], which holds the message
    of the error every operation rejects with while the store cannot be
    reached. *)
Record DB := mkDB {
  respuestas : list Respuesta;
  users : list User;
  failure : option string
}.

(** The outcome of an awaited store operation. *)
Inductive result (A : Type) :=
| Resolved (a : A)
| Rejected (message : string).
Arguments Resolved {A} a.
Arguments Rejected {A} message.

(** [Respuesta.find({})]. *)
Definition find (db : DB) : result (list Respuesta) :=
  match failure db with
  | Some m => Rejected m
  | None => Resolved (respuestas db)
  end.

(** [User.findOne({ usuario })]. *)
Definition findOne (db : DB) (name : string) : result (option User) :=
  match failure db with
  | Some m => Rejected m
  | None => Resolved (List.find (fun u => String.eqb (usuario u) name) (users db))
  end.

(** [new Respuesta(req.body).save()]: the store assigns [_id] and
    [createdAt]. *)
Definition save (db : DB) (body : RespuestaBody) (newId : string) (now : Date)
    : result DB :=
  match failure db with
  | Some m => Rejected m
  | None =>
      Resolved (mkDB
        (respuestas db ++
         [mkRespuesta newId (b_nombre body) (b_puesto body) (b_telefono body)
            (b_seguridad body) (b_problemas body) (b_sugerencia body)
            (b_calificacion body) (b_fecha body) (b_hora body) now])
        (users db) (failure db))
  end.

(** Response bodies. *)
Inductive Body :=
| Mensaje (mensaje : string)
| MensajeUser (mensaje : string) (user_usuario user_email : string)
| Error (error : string)
| ErrorDetails (error details : string)
| Documents (docs : list Respuesta).

Record Response := mkResponse { status : nat; body : Body }.

(** [app.post('/api/respuestas')]. *)
Definition postRespuestas (db : DB) (reqBody : RespuestaBody)
    (newId : string) (now : Date) : DB * Response :=
  match save db reqBody newId now with
  | Resolved db' => (db', mkResponse 201 (Mensaje "Respuesta guardada correctamente"))
  | Rejected m => (db, mkResponse 500 (ErrorDetails "Error al guardar la respuesta" m))
  end.

(** [app.get('/api/respuestas')]. *)
Definition getRespuestas (db : DB) : Response :=
  match find db with
  | Resolved docs => mkResponse 200 (Documents docs)
  | Rejected m => mkResponse 500 (ErrorDetails "Error al obtener respuestas" m)
  end.

(** The body of [POST /api/login]. *)
Record LoginBody := mkLoginBody { l_usuario : string; l_password : string }.

(** [app.post('/api/login')]. *)
Definition login (db : DB) (reqBody : LoginBody) : Response :=
  match findOne db (l_usuario reqBody) with
  | Resolved None => mkResponse 401 (Mensaje "Credenciales incorrectas")
  | Resolved (Some user) =>
      if negb (String.eqb (password user) (l_password reqBody))
      then mkResponse 401 (Mensaje "Credenciales incorrectas")
      else mkResponse 200 (MensajeUser "Login exitoso" (usuario user) (email user))
  | Rejected _ => mkResponse 500 (Error "Error en el servidor")
  end.

End Server.

(* ================================================================= *)
(** ** AdminPanel.js *)

Module AdminPanel.

Import JS.

Definition SERVER_URL : string := "https://tu-backend.onrender.com/api".

(** An element of the component state [surveys].  [problemas] is always an
    array, so the guards [e.problemas && Array.isArray(e.problemas)] of the
    statistics loop hold for every element.  [sugerencia] stays optional,
    as the export guards it, although [fetchSurveys] always fills it. *)
Record Survey := mkSurvey {
  id : string;
  fecha : string;
  hora : string;
  nombre : jsstring;
  puesto : string;
  telefono : string;
  seguridad : jsstring;
  problemas : list string;
  sugerencia : jsstring;
  calificacion : string;
  synced : bool
}.

Inductive AlertType := success | warning | danger.

Record Alert := mkAlert { type : AlertType; message : string }.

(** The component state. *)
Record State := mkState {
  surveys : list Survey;
  alert : option Alert;
  loading : bool
}.

Definition setSurveys (v : list Survey) (st : State) : State :=
  mkState v (alert st) (loading st).
Definition setAlert (v : option Alert) (st : State) : State :=
  mkState (surveys st) v (loading st).
Definition setLoading (v : bool) (st : State) : State :=
  mkState (surveys st) (alert st) v.

(** What a handler does besides updating the state. *)
Record File := mkFile { download : string; mime : string; content : string }.

(** The method of a request: the read the panel performs, and the delete
    that the comment in [clearResults] says a real application would send. *)
Inductive Method := GET | DELETE.

Inductive Effect :=
| Http (method : Method) (url : string)
| ConsoleError (label message : string)
| SetTimeout (ms : nat) (captured : list Survey)
| SaveFile (f : File).

(** The settled promise of [axios.get]. *)
Inductive AxiosResult :=
| Fulfilled (data : list Server.Respuesta)
| Failed (message : string).

(** The decimal rendering of a length inside a template literal. *)
Definition showLength {A : Type} (l : list A) : string :=
  digits (Z.of_nat (List.length l)).

(** The mapping of one stored document in [fetchSurveys]. *)
Definition fetchedSurvey (item : Server.Respuesta) : Survey :=
  mkSurvey
    (Server._id item)
    (orElse (Server.fecha item) (Server.toLocaleDateString (Server.createdAt item)))
    (orElse (Server.hora item) (Server.toLocaleTimeString (Server.createdAt item)))
    (Server.nombre item)
    (orElse (Server.puesto item) "No especificado")
    (orElse (Server.telefono item) "No proporcionado")
    (Server.seguridad item)
    (if truthy (Server.problemas item)
     then split ", " (toString (Server.problemas item))
     else [])
    (Some (orElse (Server.sugerencia item) "Ninguna sugerencia"))
    (orElse (Server.calificacion item) "3")
    true.

(** [fetchSurveys], given how the request settled: the new state and the
    effects, in order. *)
Definition fetchSurveys (st : State) (r : AxiosResult) : State * list Effect :=
  let st := setLoading true st in
  let st := setAlert None st in
  let url := SERVER_URL ++ "/respuestas" in
  match r with
  | Fulfilled data =>
      let fetchedSurveys := map fetchedSurvey data in
      let st := setSurveys fetchedSurveys st in
      let st := setAlert (Some (mkAlert success
        ("✅ Datos del servidor cargados correctamente. <br/><small>"
         ++ showLength fetchedSurveys ++ " encuestas encontradas.</small>"))) st in
      (setLoading false st, [Http GET url])
  | Failed m =>
      let st := setAlert (Some (mkAlert danger
        ("❌ Error al cargar datos del servidor. <br/><small>" ++ m ++ "</small>"))) st in
      (setLoading false st, [Http GET url; ConsoleError "Error fetching surveys:" m])
  end.

(** The header line of the export. *)
Definition csvHeader : string :=
  "ID,Fecha,Hora,Nombre,Puesto,Teléfono,Seguridad,Calificación,Problemas,Sugerencias" ++ LF.

(** The cells [problemas] and [sugerencia] of one exported row. *)
Definition csvProblemas (e : Survey) : string :=
  if (0 <? List.length (problemas e))%nat then join "; " (problemas e) else "Ninguno".

Definition csvSugerencia (e : Survey) : string :=
  escapeQuotes (orElse (sugerencia e) "Ninguna").

(** One field between double quotes. *)
Definition quoted (s : string) : string := DQ ++ s ++ DQ.

(** The template literal appended to [csv] for one element. *)
Definition csvRow (e : Survey) : string :=
  quoted (id e) ++ "," ++ quoted (fecha e) ++ "," ++ quoted (hora e) ++ ","
  ++ quoted (toString (nombre e)) ++ "," ++ quoted (puesto e) ++ ","
  ++ quoted (telefono e) ++ "," ++ quoted (toString (seguridad e)) ++ ","
  ++ quoted (calificacion e) ++ "," ++ quoted (csvProblemas e) ++ ","
  ++ quoted (csvSugerencia e) ++ LF.

Definition csvText (l : list Survey) : string :=
  fold_left (fun csv e => csv ++ csvRow e) l csvHeader.

(** The callback of the one-second timer of [exportResults]; [captured] is
    the [surveys] of the render that started the export and [iso] is
    [new Date().toISOString()] when the timer fires. *)
Definition exportCallback (captured : list Survey) (iso : string) (st : State)
    : State * list Effect :=
  let csv := csvText captured in
  let f := mkFile
    ("encuestas-seguridad-mercado-" ++ hd "" (split "T" iso) ++ ".csv")
    "text/csv;charset=utf-8;" csv in
  (setAlert (Some (mkAlert success
     ("💾 ¡Archivo exportado correctamente! <br/><small>" ++ showLength captured
      ++ " encuestas exportadas en formato CSV.</small>"))) st,
   [SaveFile f]).

(** [exportResults]. *)
Definition exportResults (st : State) : State * list Effect :=
  if (List.length (surveys st) =? 0)%nat
  then (setAlert (Some (mkAlert warning "❌ No hay datos para exportar.")) st, [])
  else (setAlert (Some (mkAlert warning "💾 Preparando archivo de exportación...")) st,
        [SetTimeout 1000 (surveys st)]).

(** [clearResults]; [confirmed] is the answer to [window.confirm]. *)
Definition clearResults (confirmed : bool) (st : State) : State * list Effect :=
  if confirmed
  then
    let st := setAlert (Some (mkAlert warning "🗑️ Eliminando datos del servidor...")) st in
    let st := setSurveys [] st in
    let st := setAlert (Some (mkAlert success
      "✅ Todas las encuestas han sido eliminadas localmente. (En un proyecto real, esto también las borraría del servidor).")) st in
    (st, [])
  else (st, []).

(* ----------------------------------------------------------------- *)
(** *** Statistics calculation *)

Record Stats := mkStats {
  seguridadStats : object;
  calificacionStats : object;
  problemasStats : object
}.

(** The body of [surveys.forEach] in the statistics calculation. *)
Definition countSurvey (acc : Stats) (e : Survey) : Stats :=
  mkStats
    (bump (seguridadStats acc) (toString (seguridad e)))
    (bump (calificacionStats acc) (calificacion e))
    (fold_left bump (problemas e) (problemasStats acc)).

Definition statistics (l : list Survey) : Stats :=
  fold_left countSurvey l (mkStats [] [] []).

(** [totalCalificaciones]. *)
Definition totalCalificaciones (l : list Survey) : number :=
  fold_left
    (fun sum entry => add sum (mul (parseInt (fst entry)) (toNumber (snd entry))))
    (entries (calificacionStats (statistics l)))
    (Num 0).

(** What the panel shows as average: the number [0] or the string made by
    [toFixed]. *)
Inductive Shown := ShownNumber (z : Z) | ShownText (s : string).

(** [promedioCalificacion]. *)
Definition promedioCalificacion (l : list Survey) : Shown :=
  if (0 <? List.length l)%nat
  then ShownText (toFixed1 (div (totalCalificaciones l) (Num (Z.of_nat (List.length l)))))
  else ShownNumber 0.

(** The entries listed under the heading of the most frequent problems. *)
Definition topProblemas (l : list Survey) : list (string * value) :=
  slice0 5 (sort byCountDesc (entries (problemasStats (statistics l)))).

End AdminPanel.

(* ================================================================= *)
(** ** The panel and the server together *)

Module System.

Import AdminPanel.

Record World := mkWorld { ui : State; db : Server.DB }.

(** [axios.get] of the collection: a status outside [2xx] rejects; [None]
    stands for a request that never reached the server. *)
Definition axiosGet (resp : option Server.Response) : AxiosResult :=
  match resp with
  | Some (Server.mkResponse 200 (Server.Documents docs)) => Fulfilled docs
  | Some r => Failed ("Request failed with status code " ++ JS.digits (Z.of_nat (Server.status r)))
  | None => Failed "Network Error"
  end.

(** What a request of the panel does to the store: the [GET] route only
    reads, and server.js has no [DELETE] route at all (the request is
    answered 404 and the store is not touched). *)
Definition serve (d : Server.DB) (e : Effect) : Server.DB :=
  match e with
  | Http GET _ => d
  | Http DELETE _ => d
  | ConsoleError _ _ | SetTimeout _ _ | SaveFile _ => d
  end.

Definition deliver (effects : list Effect) (d : Server.DB) : Server.DB :=
  fold_left serve effects d.

(** The button [Actualizar] with a reachable server. *)
Definition refresh (w : World) : World :=
  let '(st, effects) := fetchSurveys (ui w) (axiosGet (Some (Server.getRespuestas (db w)))) in
  mkWorld st (deliver effects (db w)).

(** The button [Limpiar Datos]. *)
Definition clear (confirmed : bool) (w : World) : World :=
  let '(st, effects) := clearResults confirmed (ui w) in
  mkWorld st (deliver effects (db w)).

(** A submission of the form arriving at the server, then read back by the
    panel. *)
Definition bodyOf (d : SurveyForm.SurveyData) : Server.RespuestaBody :=
  Server.mkRespuestaBody
    (Some (SurveyForm.sd_nombre d)) (Some (SurveyForm.sd_puesto d))
    (Some (SurveyForm.sd_telefono d)) (Some (SurveyForm.sd_seguridad d))
    (Some (SurveyForm.sd_problemas d)) (Some (SurveyForm.sd_sugerencia d))
    (Some (SurveyForm.sd_calificacion d)) (Some (SurveyForm.sd_fecha d))
    (Some (SurveyForm.sd_hora d)).

End System.

(* ================================================================= *)
(** ** SurveyForm.js: the handlers *)

Module SurveyFormHandlers.

Import JS SurveyForm.

(** The [name] of the inputs that are not check boxes. *)
Inductive Field := Nombre | Puesto | Telefono | Seguridad | Sugerencia | Calificacion.

(** [{ ...prev, [name]: value }]. *)
Definition setField (name : Field) (value : string) (prev : FormData) : FormData :=
  match name with
  | Nombre =>
      mkFormData value (puesto prev) (telefono prev) (seguridad prev)
        (problemas prev) (sugerencia prev) (calificacion prev)
  | Puesto =>
      mkFormData (nombre prev) value (telefono prev) (seguridad prev)
        (problemas prev) (sugerencia prev) (calificacion prev)
  | Telefono =>
      mkFormData (nombre prev) (puesto prev) value (seguridad prev)
        (problemas prev) (sugerencia prev) (calificacion prev)
  | Seguridad =>
      mkFormData (nombre prev) (puesto prev) (telefono prev) value
        (problemas prev) (sugerencia prev) (calificacion prev)
  | Sugerencia =>
      mkFormData (nombre prev) (puesto prev) (telefono prev) (seguridad prev)
        (problemas prev) value (calificacion prev)
  | Calificacion =>
      mkFormData (nombre prev) (puesto prev) (telefono prev) (seguridad prev)
        (problemas prev) (sugerencia prev) value
  end.

(** What [handleChange] reads from [e.target]. *)
Inductive ChangeEvent :=
| CheckboxChange (value : string) (checked : bool)
| InputChange (name : Field) (value : string).

(** [handleChange]. *)
Definition handleChange (e : ChangeEvent) (prev : FormData) : FormData :=
  match e with
  | CheckboxChange value checked => handleChange_checkbox value checked prev
  | InputChange name value => setField name value prev
  end.

(** The form as [useState] creates it and as a successful submit leaves
    it. *)
Definition emptyForm : FormData := mkFormData "" "" "" "" [] "" "".

(** The component state. *)
Record State := mkState {
  formData : FormData;
  alert : option AdminPanel.Alert;
  isSubmitting : bool
}.

(** The settled promise of [axios.post]: the [mensaje] of the response
    data, or the [error] of the response data (when there is a response)
    and the message of the error. *)
Inductive PostResult :=
| Posted (mensaje : jsstring)
| PostFailed (responseError : jsstring) (message : string).

Inductive Effect :=
| HttpPost (url : string) (data : SurveyData)
| ConsoleError (label message : string)
| OnSurveySubmit (data : SurveyData).

Definition SERVER_URL : string := "https://tu-backend.onrender.com/api".

Definition dangerAlert (detail : string) : AdminPanel.Alert :=
  AdminPanel.mkAlert AdminPanel.danger
    ("❌ Error al enviar la encuesta. Inténtelo de nuevo. <br/><small>" ++ detail ++ "</small>").

(** [handleSubmit], given the clock readings, how the request settled and
    what the parent's [onSurveySubmit] does when called: [None] when it
    returns, [Some m] when it throws an error of message [m]. *)
Definition handleSubmit (st : State) (fecha hora : string) (r : PostResult)
    (callback : option string) : State * list Effect :=
  let data := surveyData (formData st) fecha hora in
  let post := HttpPost (SERVER_URL ++ "/respuestas") data in
  match r with
  | Posted mensaje =>
      let ok := AdminPanel.mkAlert AdminPanel.success
        ("✅ " ++ orElse mensaje "Encuesta enviada al servidor exitosamente!"
         ++ " <br/><small>Gracias por su participación, " ++ nombre (formData st)
         ++ "</small>") in
      match callback with
      | None => (mkState emptyForm (Some ok) false, [post; OnSurveySubmit data])
      | Some m =>
          (mkState emptyForm (Some (dangerAlert (orElse None m))) false,
           [post; OnSurveySubmit data; ConsoleError "Error al enviar la encuesta:" m])
      end
  | PostFailed responseError m =>
      (mkState (formData st) (Some (dangerAlert (orElse responseError m))) false,
       [post; ConsoleError "Error al enviar la encuesta:" m])
  end.

End SurveyFormHandlers.

(* ================================================================= *)
(** ** server.js: registration *)

Module Register.

Import JS.

(** The body of [POST /api/register]. *)
Record RegisterBody := mkRegisterBody {
  token : jsstring;
  usuario : jsstring;
  email : jsstring;
  password : jsstring
}.

(** [a === b] on strings that may be [undefined]. *)
Definition strictEq (a b : jsstring) : bool :=
  match a, b with
  | None, None => true
  | Some x, Some y => String.eqb x y
  | _, _ => false
  end.

(** How [save] can reject: a required path is missing, a unique index is
    violated (the error of code 11000), or the store cannot be reached. *)
Inductive SaveError :=
| ValidationError (message : string)
| DuplicateKey (message : string)
| StoreError (message : string).

Definition code (e : SaveError) : option Z :=
  match e with DuplicateKey _ => Some 11000%Z | _ => None end.

Definition errorMessage (e : SaveError) : string :=
  match e with ValidationError m | DuplicateKey m | StoreError m => m end.

Inductive saved := Saved (db : Server.DB) | NotSaved (e : SaveError).

(** A user with the same [usuario] or the same [email] is stored already. *)
Definition taken (db : Server.DB) (u e : string) : bool :=
  existsb (fun x => String.eqb (Server.usuario x) u || String.eqb (Server.email x) e)
          (Server.users db).

Section Driver.

(** The wording of the errors is the library's. *)
Variable validationMessage : RegisterBody -> string.
Variable duplicateMessage : Server.DB -> RegisterBody -> string.

(** [new User({ usuario, email, password }).save()]: the three paths are
    required (an empty string does not satisfy [required]), the document is
    validated before it is sent, and [usuario] and [email] carry a unique
    index.  [today] is the default of [fechaRegistro]. *)
Definition saveUser (db : Server.DB) (b : RegisterBody) (today : string) : saved :=
  match usuario b, email b, password b with
  | Some (String c1 u), Some (String c2 e), Some (String c3 p) =>
      match Server.failure db with
      | Some m => NotSaved (StoreError m)
      | None =>
          if taken db (String c1 u) (String c2 e)
          then NotSaved (DuplicateKey (duplicateMessage db b))
          else Saved (Server.mkDB (Server.respuestas db)
                        (Server.users db ++
                         [Server.mkUser (String c1 u) (String c2 e) (String c3 p) today])
                        (Server.failure db))
      end
  | _, _, _ => NotSaved (ValidationError (validationMessage b))
  end.

(** [app.post('/api/register')]; [env] is
    [process.env.ADMIN_REGISTER_TOKEN]. *)
Definition register (env : jsstring) (db : Server.DB) (b : RegisterBody)
    (today : string) : Server.DB * Server.Response :=
  if negb (strictEq (token b) env)
  then (db, Server.mkResponse 403 (Server.Mensaje "Token de autorización inválido"))
  else
    match saveUser db b today with
    | Saved db' =>
        (db', Server.mkResponse 201 (Server.Mensaje "Administrador registrado exitosamente"))
    | NotSaved err =>
        match code err with
        | Some 11000%Z =>
            (db, Server.mkResponse 409 (Server.Mensaje "Usuario o email ya existen"))
        | _ =>
            (db, Server.mkResponse 500
                   (Server.ErrorDetails "Error al registrar administrador"
                      (errorMessage err)))
        end
    end.

End Driver.

End Register.

(* ================================================================= *)
(** ** AdminPanel.js: the cards, the timer, and the form with the server *)

Module Panel.

Import JS AdminPanel.

(** The text after [Problemas:] on the card of a survey. *)
Definition problemasText (encuesta : Survey) : string :=
  if (0 <? List.length (problemas encuesta))%nat
  then join ", " (problemas encuesta)
  else "Ninguno".

(** The outcome of an expression that may throw a [RangeError]. *)
Inductive outcome (A : Type) :=
| Returned (a : A)
| RangeError.
Arguments Returned {A} a.
Arguments RangeError {A}.

Fixpoint copies (n : nat) (s : string) : string :=
  match n with
  | O => EmptyString
  | S n' => s ++ copies n' s
  end.

(** [s.repeat(count)] for a string [s] of one code unit: [NaN] counts as
    zero, a negative count throws, and so does a result longer than the
    longest string of the engine, [maxLength] code units. *)
Definition repeat (maxLength : Z) (s : string) (count : number) : outcome string :=
  match count with
  | NaN => Returned EmptyString
  | Num n =>
      if (n <? 0)%Z then RangeError
      else if (maxLength <? n)%Z then RangeError
      else Returned (copies (Z.to_nat n) s)
  end.

(** The stars on the card of a survey. *)
Definition stars (maxLength : Z) (encuesta : Survey) : outcome string :=
  repeat maxLength "⭐" (parseInt (calificacion encuesta)).

(** The timers started by a handler fire: each runs the callback of
    [exportResults] on what it captured. *)
Definition fire (iso : string) (effects : list Effect) (st : State)
    : State * list Effect :=
  fold_left
    (fun acc e =>
       match e with
       | SetTimeout _ captured =>
           let '(st', out) := exportCallback captured iso (fst acc) in
           (st', snd acc ++ out)%list
       | _ => acc
       end)
    effects (st, []).

(** [axios.post] against the route: a status from 200 to 299 fulfils. *)
Definition axiosPost (resp : option Server.Response) : SurveyFormHandlers.PostResult :=
  match resp with
  | Some r =>
      if ((200 <=? Server.status r) && (Server.status r <? 300))%nat
      then SurveyFormHandlers.Posted
             (match Server.body r with
              | Server.Mensaje m | Server.MensajeUser m _ _ => Some m
              | _ => None
              end)
      else SurveyFormHandlers.PostFailed
             (match Server.body r with
              | Server.Error e | Server.ErrorDetails e _ => Some e
              | _ => None
              end)
             ("Request failed with status code " ++ digits (Z.of_nat (Server.status r)))
  | None => SurveyFormHandlers.PostFailed None "Network Error"
  end.

(** The form in front of a server that is reached: the submit button,
    with the store. *)
Definition submit (st : SurveyFormHandlers.State) (d : Server.DB)
    (fecha hora newId : string) (now : Server.Date) (callback : option string)
    : SurveyFormHandlers.State * Server.DB * list SurveyFormHandlers.Effect :=
  let data := SurveyForm.surveyData (SurveyFormHandlers.formData st) fecha hora in
  let '(d', resp) := Server.postRespuestas d (System.bodyOf data) newId now in
  let '(st', effects) :=
    SurveyFormHandlers.handleSubmit st fecha hora (axiosPost (Some resp)) callback in
  (st', d', effects).

End Panel.

(* ================================================================= *)
(** ** server.js: loading the module *)

Module Startup.

Import JS.

(** The variables of the environment the module reads. *)
Record Env := mkEnv {
  MONGODB_URI : jsstring;
  PORT : jsstring
}.

(** What a top-level statement does once its operands are evaluated. *)
Inductive Action :=
| Use (middleware : string)
| Config
| Connect (uri : jsstring)
| Model (name : string)
| Route (method path : string)
| Listen (port : string + Z).

(** A top-level statement: the line it starts on, the identifiers it
    evaluates, in order, before it does anything (the body of a function
    expression is not evaluated), what it does, and the [const] it
    initialises when it completes. *)
Record Statement := mkStatement {
  line : nat;
  reads : list string;
  does : list Action;
  declares : option string
}.

(** The global bindings the module relies on. *)
Definition globals : list string := ["require"; "process"; "String"; "Date"].

(** The [const]s of the module scope: all of them are in scope from the
    first statement on, each uninitialised until its declaration runs. *)
Definition declared (m : list Statement) : list string :=
  flat_map (fun s => match declares s with Some x => [x] | None => [] end) m.

Inductive ReferenceError :=
| BeforeInitialization (name : string)
| NotDefined (name : string).

Definition mem (x : string) (l : list string) : bool := existsb (String.eqb x) l.

(** Evaluating an identifier: a [const] of the module hides a global of the
    same name, also before it is initialised. *)
Definition lookup (scope initialised : list string) (x : string) : option ReferenceError :=
  if mem x initialised then None
  else if mem x scope then Some (BeforeInitialization x)
  else if mem x globals then None
  else Some (NotDefined x).

Fixpoint firstThrown (scope initialised xs : list string) : option ReferenceError :=
  match xs with
  | [] => None
  | x :: xs' =>
      match lookup scope initialised x with
      | Some e => Some e
      | None => firstThrown scope initialised xs'
      end
  end.

Inductive Outcome :=
| Loaded (done : list Action)
| Threw (e : ReferenceError) (atLine : nat) (done : list Action).

(** The statements run in order; the first that throws ends the load. *)
Fixpoint run (scope : list string) (m : list Statement) (initialised : list string)
    (done : list Action) : Outcome :=
  match m with
  | [] => Loaded done
  | s :: rest =>
      match firstThrown scope initialised (reads s) with
      | Some e => Threw e (line s) done
      | None =>
          run scope rest
            (match declares s with Some x => x :: initialised | None => initialised end)
            (done ++ does s)
      end
  end.

Definition load (m : list Statement) : Outcome := run (declared m) m [] [].

(** [process.env.PORT || 3000] *)
Definition port (env : Env) : string + Z :=
  match PORT env with
  | Some (String c s) => inl (String c s)
  | _ => inr 3000%Z
  end.

(** The top-level statements of [server.js]. *)
Definition server_js (env : Env) : list Statement :=
  [ mkStatement 1 ["require"] [] (Some "express");
    mkStatement 2 ["require"] [] (Some "mongoose");
    mkStatement 3 ["require"] [] (Some "cors");
    mkStatement 4 ["app"; "cors"] [Use "cors"] None;
    mkStatement 7 ["require"] [Config] None;
    mkStatement 9 ["express"] [] (Some "app");
    mkStatement 10 ["app"; "cors"] [Use "cors"] None;
    mkStatement 11 ["app"; "express"] [Use "json"] None;
    mkStatement 14 ["mongoose"; "process"] [Connect (MONGODB_URI env)] None;
    mkStatement 21 ["mongoose"; "String"; "Date"] [] (Some "respuestaSchema");
    mkStatement 33 ["mongoose"; "respuestaSchema"] [Model "Respuesta"] (Some "Respuesta");
    mkStatement 36 ["mongoose"; "String"] [] (Some "userSchema");
    mkStatement 42 ["mongoose"; "userSchema"] [Model "User"] (Some "User");
    mkStatement 45 ["app"] [Route "POST" "/api/respuestas"] None;
    mkStatement 57 ["app"] [Route "GET" "/api/respuestas"] None;
    mkStatement 68 ["app"] [Route "POST" "/api/login"] None;
    mkStatement 83 ["app"] [Route "POST" "/api/register"] None;
    mkStatement 104 ["process"] [] (Some "PORT");
    mkStatement 105 ["app"; "PORT"] [Listen (port env)] None ].

End Startup.

(* ================================================================= *)
(** ** Vocabulary of the properties *)

(** *** Strings and the export *)

(** [occurs sep s]: [sep] matches somewhere in [s]. *)
Fixpoint occurs (sep s : string) : bool :=
  match s with
  | EmptyString => prefix sep EmptyString
  | String _ s' => prefix sep s || occurs sep s'
  end.




(** *** Counters *)

(** The number a counter holds, and the weighted sum of the counters of an
    object: [f] gives the weight of a key. *)
Definition countOf (v : JS.value) : nat :=
  match v with JS.VNum n => n | JS.VText _ _ => 0 end.

Definition isNumber (v : JS.value) : bool :=
  match v with JS.VNum _ => true | JS.VText _ _ => false end.

Definition numeric (o : JS.object) : bool := forallb (fun p => isNumber (snd p)) o.

(** Every value of the object is a number from one up. *)
Definition fromOne (o : JS.object) : bool :=
  forallb (fun p => match snd p with JS.VNum n => (0 <? n)%nat | JS.VText _ _ => false end) o.

Definition weigh (f : string -> Z) (o : list (string * JS.value)) : Z :=
  fold_right (fun p acc => f (fst p) * Z.of_nat (countOf (snd p)) + acc)%Z 0%Z o.

Definition totalCount (o : list (string * JS.value)) : nat :=
  fold_right (fun p acc => countOf (snd p) + acc) 0 o.

Definition sumOver (f : string -> Z) (ks : list string) : Z :=
  fold_right (fun k acc => f k + acc)%Z 0%Z ks.

(** The count an object holds under a key, zero when the key is absent. *)
Definition held (o : JS.object) (k : string) : nat :=
  match JS.own o k with Some v => countOf v | None => 0 end.

Definition occurrences (k : string) (ks : list string) : nat :=
  count_occ string_dec ks k.

(** The keys seen so far, in the order in which they were first seen. *)
Definition noteKey (seen : list string) (k : string) : list string :=
  if existsb (String.eqb k) seen then seen else seen ++ [k].

Definition firstSeen (ks : list string) : list string := fold_left noteKey ks [].

Definition seguridadKey (e : AdminPanel.Survey) : string :=
  JS.toString (AdminPanel.seguridad e).

(** [descending a b]: the entry [a] may stand before [b]. *)
Definition descending (a b : string * JS.value) : Prop :=
  countOf (snd b) <= countOf (snd a).

Definition sameCount (n : nat) (p : string * JS.value) : bool :=
  (countOf (snd p) =? n)%nat.

(** *** Ratings *)

(** The integer read from a key, zero when there is none. *)
Definition integerOf (x : JS.number) : Z :=
  match x with JS.Num z => z | JS.NaN => 0%Z end.

Definition parsed (k : string) : Z := integerOf (JS.parseInt k).
Definition magnitude (k : string) : Z := Z.abs (parsed k).

(** The step of the reduction in [totalCalificaciones]. *)
Definition addEntry (sum : JS.number) (entry : string * JS.value) : JS.number :=
  JS.add sum (JS.mul (JS.parseInt (fst entry)) (JS.toNumber (snd entry))).

(** The rating [fetchSurveys] puts in memory for a stored document: the
    stored string, or the string [3] when the field is absent or empty. *)
Definition storedRating (item : Server.Respuesta) : string :=
  JS.orElse (Server.calificacion item) "3".

(** The reading under which a rating that is missing or has no integer
    counts as zero, and the average that reading gives. *)
Definition zeroDefaultRating (item : Server.Respuesta) : Z :=
  match Server.calificacion item with
  | Some s => integerOf (JS.parseInt s)
  | None => 0%Z
  end.

Definition zeroDefaultAverage (items : list Server.Respuesta) : AdminPanel.Shown :=
  match items with
  | [] => AdminPanel.ShownNumber 0
  | _ :: _ =>
      AdminPanel.ShownText
        (JS.toFixed1 (JS.div (JS.Num (fold_right Z.add 0%Z (map zeroDefaultRating items)))
                             (JS.Num (Z.of_nat (List.length items)))))
  end.

(** A sign and a number of tenths written with one decimal. *)
Definition signText (t : Z) : string := if (t <? 0)%Z then "-" else "".
Definition oneDecimal (q : Z) : string :=
  JS.digits (q / 10) ++ "." ++ JS.digits (q mod 10).

(** *** Tags *)

(** The tags [fetchSurveys] puts in memory for a stored document, and all
    of them over a collection, in order. *)
Definition storedTags (item : Server.Respuesta) : list string :=
  AdminPanel.problemas (AdminPanel.fetchedSurvey item).

Definition allTags (items : list Server.Respuesta) : list string :=
  flat_map storedTags items.

(** The reading under which empty tokens are discarded, and the number of
    documents whose tags, so read, contain a given one. *)
Definition discardingTags (item : Server.Respuesta) : list string :=
  match Server.problemas item with
  | Some s => filter (fun t => negb (String.eqb t "")) (JS.split ", " s)
  | None => []
  end.

Definition documentsWith (tag : string) (items : list Server.Respuesta) : nat :=
  List.length (filter (fun item => existsb (String.eqb tag) (discardingTags item)) items).

(** *** Sample data *)

(** Sample documents: one without a rating, one whose rating is no
    number, and the three of the example scenario. *)
Definition sampleDate : Server.Date := Server.mkDate "3/11/2025" "10:15:00".

Definition document (ident : string) (seguridad problemas calificacion : JS.jsstring)
    : Server.Respuesta :=
  Server.mkRespuesta ident (Some "Ana") (Some "12") None seguridad problemas None
    calificacion None None sampleDate.

Definition unrated : Server.Respuesta := document "a1" (Some "no") None None.
Definition misrated : Server.Respuesta := document "a2" (Some "no") None (Some "cinco").
Definition scenario : list Server.Respuesta :=
  [document "b1" (Some "sí") (Some "robo, iluminacion") (Some "5");
   document "b2" (Some "no") (Some "") (Some "3");
   document "b3" (Some "sí") (Some "robo") (Some "4")].

(** A stored string with two separators in a row. *)
Definition gapped : Server.Respuesta :=
  document "c1" (Some "no") (Some "robo, , iluminacion") (Some "4").

(** A document whose answer and rating are the string [__proto__]. *)
Definition protoDocument : Server.Respuesta :=
  document "d1" (Some "__proto__") None (Some "__proto__").

(** Four documents: two report a problem called [constructor], the two
    others one problem each. *)
Definition constructorDocuments : list Server.Respuesta :=
  [document "e1" (Some "no") (Some "robo") (Some "2");
   document "e2" (Some "no") (Some "constructor") (Some "2");
   document "e3" (Some "no") (Some "iluminacion") (Some "2");
   document "e4" (Some "no") (Some "constructor") (Some "2")].

Definition oneAdmin : Server.DB :=
  Server.mkDB [] [Server.mkUser "admin" "admin@mercado.bo" "secreto" "3/11/2025"] None.

(** The same users, in a store that rejects every operation. *)
Definition oneAdminUnreached : Server.DB :=
  Server.mkDB [] (Server.users oneAdmin) (Some "ECONNREFUSED").

(* ================================================================= *)
(** ** Vocabulary of the further properties *)

(** The document the store holds for a submitted form. *)
Definition storedForm (form : SurveyForm.FormData) (fecha hora newId : string)
    (now : Server.Date) : Server.Respuesta :=
  Server.mkRespuesta newId
    (Some (SurveyForm.nombre form)) (Some (SurveyForm.puesto form))
    (Some (SurveyForm.telefono form)) (Some (SurveyForm.seguridad form))
    (Some (JS.join ", " (SurveyForm.problemas form)))
    (Some (SurveyForm.sugerencia form)) (Some (SurveyForm.calificacion form))
    (Some fecha) (Some hora) now.

(** A string, or a default when it is empty. *)
Definition orDefault (s d : string) : string :=
  match s with EmptyString => d | String _ _ => s end.

(** No two users share a name, and no two share an address. *)
Definition uniqueUsers (db : Server.DB) : Prop :=
  NoDup (map Server.usuario (Server.users db))
  /\ NoDup (map Server.email (Server.users db)).

(** The three required paths are present and not empty. *)
Definition complete (b : Register.RegisterBody) : bool :=
  JS.truthy (Register.usuario b) && JS.truthy (Register.email b)
  && JS.truthy (Register.password b).

(** A survey whose stall, telephone, suggestion and rating are not empty
    and that is marked as synchronised. *)
Definition filled (e : AdminPanel.Survey) : Prop :=
  AdminPanel.puesto e <> "" /\ AdminPanel.telefono e <> ""
  /\ JS.truthy (AdminPanel.sugerencia e) = true
  /\ AdminPanel.calificacion e <> "" /\ AdminPanel.synced e = true.

(** The ratings the form can send. *)
Definition formRatings : list string := ["1"; "2"; "3"; "4"; "5"].

(** Reading an escaped cell back: two double quotes stand for one. *)
Fixpoint undoubled (s : string) : string :=
  match s with
  | EmptyString => EmptyString
  | String c r =>
      match r with
      | String d r' =>
          if Ascii.eqb c JS.dq && Ascii.eqb d JS.dq then String JS.dq (undoubled r')
          else String c (undoubled r)
      | EmptyString => String c EmptyString
      end
  end.

Fixpoint pairedQuotes (s : string) : bool :=
  match s with
  | EmptyString => true
  | String c r =>
      if Ascii.eqb c JS.dq
      then match r with
           | String d r' => Ascii.eqb d JS.dq && pairedQuotes r'
           | EmptyString => false
           end
      else pairedQuotes r
  end.

(** Sample data of the further properties. *)
Definition sampleForm : SurveyForm.FormData :=
  SurveyForm.mkFormData "Ana" "A-15" "" "no" ["robo"] "" "4".

Definition sampleFormState : SurveyFormHandlers.State :=
  SurveyFormHandlers.mkState sampleForm None false.

Definition emptyStore : Server.DB := Server.mkDB [] [] None.
Definition failingStore : Server.DB := Server.mkDB [] [] (Some "ECONNREFUSED").

Definition sampleRegistration : Register.RegisterBody :=
  Register.mkRegisterBody (Some "clave") (Some "nuevo") (Some "nuevo@mercado.bo")
    (Some "secreto2").

Definition repeatedRegistration : Register.RegisterBody :=
  Register.mkRegisterBody (Some "clave") (Some "admin") (Some "otra@mercado.bo")
    (Some "secreto2").

Definition sampleValidationMessage (b : Register.RegisterBody) : string :=
  "User validation failed".
Definition sampleDuplicateMessage (db : Server.DB) (b : Register.RegisterBody) : string :=
  "E11000 duplicate key error".

Definition sampleSurveys : list AdminPanel.Survey :=
  map AdminPanel.fetchedSurvey scenario.

Definition samplePanel : AdminPanel.State :=
  AdminPanel.mkState sampleSurveys None false.

(* ================================================================= *)
(** ** Properties *)

(** *** Splitting what was joined *)

Lemma prefix_separator (c : ascii) (s : string) :
  prefix ", " (String c s) =
  Ascii.eqb c "," && match s with String d _ => Ascii.eqb d " " | EmptyString => false end.
Proof.
  cbn [prefix]. destruct (ascii_dec "," c) as [<-|Hc].
  - rewrite Ascii.eqb_refl. cbn [andb]. destruct s as [|d s]; [reflexivity|].
    cbn [prefix]. destruct (ascii_dec " " d) as [<-|Hd].
    + rewrite Ascii.eqb_refl. destruct s; reflexivity.
    + symmetry. apply Ascii.eqb_neq. congruence.
  - replace (Ascii.eqb c ",") with false; [reflexivity|].
    symmetry. apply Ascii.eqb_neq. congruence.
Qed.

Lemma split_token (t rest : string) :
  occurs ", " t = false ->
  JS.split_from ", " 0 (t ++ ", " ++ rest) = t :: JS.split_from ", " 0 rest.
Proof.
  induction t as [|c t IH]; intros Hocc.
  - change (EmptyString ++ ", " ++ rest) with (String "," (String " " rest)).
    cbn [JS.split_from]. rewrite prefix_separator. reflexivity.
  - cbn [occurs] in Hocc. apply orb_false_iff in Hocc as [Hp Ho].
    change (String c t ++ ", " ++ rest) with (String c (t ++ ", " ++ rest)).
    cbn [JS.split_from].
    replace (prefix ", " (String c (t ++ ", " ++ rest))) with false.
    + rewrite (IH Ho). reflexivity.
    + symmetry. rewrite prefix_separator in *.
      destruct t as [|d t]; [|exact Hp].
      cbn. apply andb_false_r.
Qed.

Lemma split_single (t : string) :
  occurs ", " t = false -> JS.split_from ", " 0 t = [t].
Proof.
  induction t as [|c t IH]; intros Hocc; [reflexivity|].
  cbn [occurs] in Hocc. apply orb_false_iff in Hocc as [Hp Ho].
  cbn [JS.split_from]. rewrite Hp, (IH Ho). reflexivity.
Qed.

Lemma split_join (l : list string) :
  l <> [] ->
  Forall (fun t => occurs ", " t = false) l ->
  JS.split ", " (JS.join ", " l) = l.
Proof.
  unfold JS.split, JS.join.
  induction l as [|t l IH]; intros Hne Hall; [congruence|].
  inversion Hall as [|? ? Ht Hl]; subst.
  destruct l as [|u l].
  - cbn [String.concat]. apply split_single, Ht.
  - change (String.concat ", " (t :: u :: l))
      with (t ++ ", " ++ String.concat ", " (u :: l)).
    rewrite (split_token _ _ Ht). f_equal. apply IH; [discriminate|exact Hl].
Qed.

Lemma vocabulary_tag (t : string) :
  In t SurveyForm.vocabulary -> occurs ", " t = false /\ t <> EmptyString.
Proof.
  unfold SurveyForm.vocabulary. cbn [In].
  intros [<-|[<-|[<-|[<-|[<-|[<-|[]]]]]]]; split; (reflexivity || discriminate).
Qed.

Lemma join_truthy (t : string) (l : list string) :
  t <> EmptyString -> JS.truthy (Some (JS.join ", " (t :: l))) = true.
Proof.
  intros Ht. unfold JS.join. destruct t as [|c t]; [congruence|].
  destruct l; reflexivity.
Qed.

(** What a refresh leaves in memory: the mapped documents when the store
    answers, the previous list when it does not. *)
Lemma refresh_surveys (w : System.World) :
  AdminPanel.surveys (System.ui (System.refresh w))
  = match Server.find (System.db w) with
    | Server.Resolved docs => map AdminPanel.fetchedSurvey docs
    | Server.Rejected _ => AdminPanel.surveys (System.ui w)
    end
  /\ System.db (System.refresh w) = System.db w.
Proof.
  unfold System.refresh, Server.getRespuestas.
  destruct (Server.find (System.db w)); cbn; split; reflexivity.
Qed.

(** What [fetchSurveys] makes of a stored string that is a join of tags of
    the vocabulary. *)
Lemma fetched_tags_of_join (tags : list string) (item : Server.Respuesta) :
  Forall (fun t => In t SurveyForm.vocabulary) tags ->
  Server.problemas item = Some (JS.join ", " tags) ->
  AdminPanel.problemas (AdminPanel.fetchedSurvey item) = tags.
Proof.
  intros Hvoc Hitem. unfold AdminPanel.fetchedSurvey. cbn [AdminPanel.problemas].
  rewrite Hitem. destruct tags as [|t l]; [reflexivity|].
  inversion Hvoc as [|? ? Ht Hl]; subst.
  rewrite join_truthy by (apply vocabulary_tag, Ht).
  cbn [JS.toString]. apply split_join; [discriminate|].
  constructor.
  - apply vocabulary_tag, Ht.
  - eapply Forall_impl; [|exact Hl]. intros a Ha. apply vocabulary_tag, Ha.
Qed.

(** C4.  Whatever tags of the vocabulary the form holds, in whatever order,
    the [problemas] string built by [handleSubmit] and stored by the server
    is mapped back by [fetchSurveys] to the very same sequence of tags; the
    empty selection comes back as the empty array. *)
Theorem problemas_round_trip
    (form : SurveyForm.FormData) (fecha hora : string) (item : Server.Respuesta) :
  Forall (fun t => In t SurveyForm.vocabulary) (SurveyForm.problemas form) ->
  Server.problemas item
    = Some (SurveyForm.sd_problemas (SurveyForm.surveyData form fecha hora)) ->
  AdminPanel.problemas (AdminPanel.fetchedSurvey item) = SurveyForm.problemas form.
Proof.
  intros Hvoc Hitem. apply fetched_tags_of_join; [exact Hvoc|exact Hitem].
Qed.

(** The same through the server: once the submission is saved, a refresh
    of the panel ends with a survey carrying the tags of the form. *)
Lemma submitted_then_fetched
    (form : SurveyForm.FormData) (fecha hora newId : string) (now : Server.Date)
    (st : AdminPanel.State) (d : Server.DB) :
  Forall (fun t => In t SurveyForm.vocabulary) (SurveyForm.problemas form) ->
  Server.failure d = None ->
  map AdminPanel.problemas
    (AdminPanel.surveys (System.ui (System.refresh (System.mkWorld st
       (fst (Server.postRespuestas d
               (System.bodyOf (SurveyForm.surveyData form fecha hora)) newId now))))))
  = (map AdminPanel.problemas (map AdminPanel.fetchedSurvey (Server.respuestas d))
     ++ [SurveyForm.problemas form])%list.
Proof.
  intros Hvoc Hd. rewrite (proj1 (refresh_surveys _)). cbn [System.db].
  unfold Server.postRespuestas, Server.save. rewrite Hd. cbn [fst].
  unfold Server.find. cbn [Server.failure Server.respuestas].
  rewrite !map_app. cbn [map]. f_equal. f_equal.
  apply fetched_tags_of_join; [exact Hvoc|reflexivity].
Qed.

(** *** The CSV export *)

Lemma append_assoc (a b c : string) : (a ++ b) ++ c = a ++ (b ++ c).
Proof.
  induction a as [|x a IH]; [reflexivity|]. cbn. now rewrite IH.
Qed.


Lemma append_empty (a : string) : a ++ "" = a.
Proof.
  induction a as [|x a IH]; [reflexivity|]. cbn. now rewrite IH.
Qed.

Lemma concat_rows (rows : list string) :
  String.concat "" rows = fold_right append "" rows.
Proof.
  induction rows as [|r rows IH]; [reflexivity|].
  cbn [fold_right]. rewrite <- IH.
  destruct rows; cbn [String.concat]; [now rewrite append_empty|reflexivity].
Qed.

(** The exported text is the header followed by the rows, one per element
    and in their order. *)
Lemma csvText_rows (l : list AdminPanel.Survey) :
  AdminPanel.csvText l
  = AdminPanel.csvHeader ++ String.concat "" (map AdminPanel.csvRow l).
Proof.
  unfold AdminPanel.csvText. rewrite concat_rows.
  generalize AdminPanel.csvHeader as h.
  induction l as [|e l IH]; intros h; cbn [fold_left map fold_right].
  - now rewrite append_empty.
  - rewrite IH. apply append_assoc.
Qed.

(** A survey made by [fetchSurveys] never has an empty suggestion: the
    default text of the fetch is what the export then shows. *)
Lemma csvSugerencia_fetched (item : Server.Respuesta) :
  AdminPanel.csvSugerencia (AdminPanel.fetchedSurvey item)
  = JS.escapeQuotes (JS.orElse (Server.sugerencia item) "Ninguna sugerencia").
Proof.
  unfold AdminPanel.csvSugerencia, AdminPanel.fetchedSurvey.
  cbn [AdminPanel.sugerencia].
  destruct (Server.sugerencia item) as [[|c r]|]; reflexivity.
Qed.


(** *** Handlers of the panel *)

(** C6.  With no survey in memory [exportResults] only raises the warning
    alert: it starts no timer and saves no file, and the handler returns
    normally. *)
Theorem export_of_nothing (st : AdminPanel.State) :
  AdminPanel.surveys st = [] ->
  AdminPanel.exportResults st
  = (AdminPanel.mkState [] (Some (AdminPanel.mkAlert AdminPanel.warning
                                    "❌ No hay datos para exportar."))
                        (AdminPanel.loading st),
     []).
Proof.
  intros Hs. unfold AdminPanel.exportResults, AdminPanel.setAlert.
  rewrite Hs. reflexivity.
Qed.

(** C7.  When the request for the collection fails with message [m],
    [fetchSurveys] keeps the surveys it had, shows the danger alert built
    from [m], logs the error and ends with [loading] off. *)
Theorem fetch_failure_keeps_surveys (st : AdminPanel.State) (m : string) :
  let '(st', effects) := AdminPanel.fetchSurveys st (AdminPanel.Failed m) in
  AdminPanel.surveys st' = AdminPanel.surveys st
  /\ AdminPanel.alert st'
     = Some (AdminPanel.mkAlert AdminPanel.danger
               ("❌ Error al cargar datos del servidor. <br/><small>" ++ m ++ "</small>"))
  /\ AdminPanel.loading st' = false
  /\ In (AdminPanel.ConsoleError "Error fetching surveys:" m) effects.
Proof.
  cbn. repeat split. right. left. reflexivity.
Qed.

(** A store that rejects makes the route answer 500, which the panel
    receives as a failed request. *)
Lemma refresh_of_failing_store (w : System.World) (m : string) :
  Server.failure (System.db w) = Some m ->
  AdminPanel.surveys (System.ui (System.refresh w)) = AdminPanel.surveys (System.ui w)
  /\ System.db (System.refresh w) = System.db w.
Proof.
  intros Hf. unfold System.refresh, Server.getRespuestas, Server.find.
  rewrite Hf. cbn. split; reflexivity.
Qed.

(** C8.  [clearResults] sends nothing, whatever the answer to the
    confirmation, so no delete request either: the store is the same
    afterwards and the route returns the same documents as before, which
    are what a refresh after the clear loads again.  A confirmed clear
    empties the list in memory. *)
Theorem clear_is_local (confirmed : bool) (w : System.World) :
  snd (AdminPanel.clearResults confirmed (System.ui w)) = []
  /\ (forall url, ~ In (AdminPanel.Http AdminPanel.DELETE url)
                       (snd (AdminPanel.clearResults confirmed (System.ui w))))
  /\ AdminPanel.surveys (System.ui (System.clear true w)) = []
  /\ System.db (System.clear confirmed w) = System.db w
  /\ Server.getRespuestas (System.db (System.clear confirmed w))
     = Server.getRespuestas (System.db w)
  /\ AdminPanel.surveys (System.ui (System.refresh (System.clear confirmed w)))
     = match Server.find (System.db w) with
       | Server.Resolved docs => map AdminPanel.fetchedSurvey docs
       | Server.Rejected _ => AdminPanel.surveys (System.ui (System.clear confirmed w))
       end.
Proof.
  assert (Hdb : System.db (System.clear confirmed w) = System.db w)
    by (destruct confirmed; reflexivity).
  assert (Hnone : snd (AdminPanel.clearResults confirmed (System.ui w)) = [])
    by (destruct confirmed; reflexivity).
  repeat split.
  - exact Hnone.
  - rewrite Hnone. intros url [].
  - exact Hdb.
  - now rewrite Hdb.
  - rewrite (proj1 (refresh_surveys _)), Hdb. reflexivity.
Qed.

(** *** Login *)

(** C9, amended.  While the store answers: when some stored user has the
    name sent and no stored user of that name has the password sent, the
    route answers 401 with the message of wrong credentials (so neither
    200 nor 500). *)
Theorem login_wrong_password
    (db : Server.DB) (req : Server.LoginBody) (user : Server.User) :
  Server.failure db = None ->
  In user (Server.users db) ->
  Server.usuario user = Server.l_usuario req ->
  (forall u, In u (Server.users db) ->
             Server.usuario u = Server.l_usuario req ->
             Server.password u <> Server.l_password req) ->
  Server.login db req = Server.mkResponse 401 (Server.Mensaje "Credenciales incorrectas").
Proof.
  intros Hf _ _ Hpw. unfold Server.login, Server.findOne. rewrite Hf.
  destruct (List.find (fun u => String.eqb (Server.usuario u) (Server.l_usuario req))
                      (Server.users db)) as [found|] eqn:E; [|reflexivity].
  apply find_some in E as [Hin Hname]. apply String.eqb_eq in Hname.
  specialize (Hpw found Hin Hname). apply String.eqb_neq in Hpw.
  rewrite Hpw. reflexivity.
Qed.

(** C9, as stated, fails: when the store rejects the lookup, a request
    naming a stored user with a password that is not the stored one is
    answered 500, not 401. *)
Lemma login_wrong_password_store_rejects :
  In (Server.mkUser "admin" "admin@mercado.bo" "secreto" "3/11/2025")
     (Server.users oneAdminUnreached)
  /\ (forall u, In u (Server.users oneAdminUnreached) ->
                Server.usuario u = "admin" -> Server.password u <> "otra")
  /\ Server.login oneAdminUnreached (Server.mkLoginBody "admin" "otra")
     = Server.mkResponse 500 (Server.Error "Error en el servidor")
  /\ Server.login oneAdminUnreached (Server.mkLoginBody "admin" "otra")
     <> Server.mkResponse 401 (Server.Mensaje "Credenciales incorrectas").
Proof.
  split; [now left|]. split; [|split].
  - intros u [<-|[]] _. cbn. discriminate.
  - reflexivity.
  - cbn. discriminate.
Qed.

(** *** Counting with a plain object *)

Lemma own_put (o : JS.object) (k k' : string) (v : JS.value) :
  JS.own (JS.put o k v) k' = if String.eqb k k' then Some v else JS.own o k'.
Proof.
  induction o as [|[k0 v0] o IH]; cbn [JS.put JS.own]; [reflexivity|].
  destruct (String.eqb_spec k0 k) as [->|Hk0].
  - cbn [JS.own]. destruct (String.eqb k k'); reflexivity.
  - cbn [JS.own]. rewrite IH.
    destruct (String.eqb_spec k0 k') as [->|Hk']; [|reflexivity].
    destruct (String.eqb_spec k k') as [->|]; [congruence|reflexivity].
Qed.

Lemma inherited_proto (k : string) :
  JS.inherited k = false -> String.eqb k "__proto__" = false.
Proof.
  intros Hk. destruct (String.eqb_spec k "__proto__") as [->|]; [|reflexivity].
  discriminate Hk.
Qed.

Lemma own_numeric (o : JS.object) (k : string) (v : JS.value) :
  numeric o = true -> JS.own o k = Some v -> isNumber v = true.
Proof.
  induction o as [|[k0 v0] o IH]; cbn [numeric forallb JS.own snd]; [discriminate|].
  intros Hn Ho. apply andb_true_iff in Hn as [Hv Hn].
  destruct (String.eqb k0 k); [injection Ho as <-; exact Hv | exact (IH Hn Ho)].
Qed.

Lemma numeric_put (o : JS.object) (k : string) (n : nat) :
  numeric o = true -> numeric (JS.put o k (JS.VNum n)) = true.
Proof.
  induction o as [|[k0 v0] o IH]; cbn [JS.put numeric forallb snd]; [reflexivity|].
  intros Hn. apply andb_true_iff in Hn as [Hv Hn].
  destruct (String.eqb k0 k); cbn [numeric forallb snd isNumber].
  - exact Hn.
  - rewrite Hv. exact (IH Hn).
Qed.

(** On a numeric object a key that is not inherited gets the next number. *)
Lemma next_numeric (o : JS.object) (k : string) :
  numeric o = true -> JS.inherited k = false ->
  JS.next o k = JS.VNum (match JS.own o k with Some v => countOf v | None => 0 end + 1).
Proof.
  intros Hn Hk. unfold JS.next. rewrite Hk.
  destruct (JS.own o k) as [v|] eqn:Ho; [|reflexivity].
  pose proof (own_numeric _ _ _ Hn Ho) as Hv. destruct v; [reflexivity|discriminate].
Qed.

Lemma weigh_put (f : string -> Z) (o : JS.object) (k : string) (v : JS.value) :
  weigh f (JS.put o k v)
  = (weigh f o
     - f k * Z.of_nat (match JS.own o k with Some v0 => countOf v0 | None => 0 end)
     + f k * Z.of_nat (countOf v))%Z.
Proof.
  induction o as [|[k0 v0] o IH]; cbn [JS.put JS.own weigh fold_right fst snd].
  - lia.
  - destruct (String.eqb_spec k0 k) as [->|Hk0]; cbn [weigh fold_right fst snd].
    + fold (weigh f o). lia.
    + fold (weigh f o) (weigh f (JS.put o k v)). rewrite IH. lia.
Qed.

Lemma bump_numeric (o : JS.object) (k : string) :
  numeric o = true -> JS.inherited k = false ->
  numeric (JS.bump o k) = true
  /\ forall f, weigh f (JS.bump o k) = (weigh f o + f k)%Z.
Proof.
  intros Hn Hk. unfold JS.bump, JS.assign.
  rewrite (inherited_proto _ Hk), (next_numeric _ _ Hn Hk). split.
  - apply numeric_put, Hn.
  - intros f. rewrite weigh_put. cbn [countOf]. lia.
Qed.

Lemma bumps_numeric (ks : list string) (o : JS.object) :
  numeric o = true -> Forall (fun k => JS.inherited k = false) ks ->
  numeric (fold_left JS.bump ks o) = true
  /\ forall f, weigh f (fold_left JS.bump ks o) = (weigh f o + sumOver f ks)%Z.
Proof.
  revert o. induction ks as [|k ks IH]; intros o Hn Hks; cbn [fold_left sumOver fold_right].
  - split; [exact Hn|intros f; lia].
  - inversion Hks as [|? ? Hk Hks']; subst.
    destruct (bump_numeric o k Hn Hk) as [Hn' Hw].
    destruct (IH _ Hn' Hks') as [Hn'' Hw'']. split; [exact Hn''|].
    intros f. rewrite Hw'', Hw. fold (sumOver f ks). lia.
Qed.

(** [Object.entries] lists every own property once. *)
Lemma insertIndexed_perm (i : Z) (p : string * JS.value) l :
  Permutation (JS.insertIndexed i p l) ((i, p) :: l).
Proof.
  induction l as [|[j q] l IH]; cbn [JS.insertIndexed]; [reflexivity|].
  destruct (i <? j)%Z; [reflexivity|].
  rewrite IH. apply perm_swap.
Qed.

Lemma entries_perm (o : JS.object) : Permutation (JS.entries o) o.
Proof.
  unfold JS.entries, JS.named.
  induction o as [|[k v] o IH]; cbn [JS.indexed filter fst]; [reflexivity|].
  destruct (JS.arrayIndex k) as [i|].
  - rewrite insertIndexed_perm. cbn [map snd app]. now constructor.
  - rewrite <- Permutation_middle. now constructor.
Qed.

Lemma weigh_perm (f : string -> Z) l l' :
  Permutation l l' -> weigh f l = weigh f l'.
Proof.
  induction 1 as [|p l l' _ IH|p q l|l l' l'' _ IH1 _ IH2];
    unfold weigh in *; cbn [fold_right]; lia.
Qed.

Lemma numeric_perm l l' : Permutation l l' -> numeric l = numeric l'.
Proof.
  induction 1 as [|p l l' _ IH|p q l|l l' l'' _ IH1 _ IH2]; cbn [numeric forallb].
  - reflexivity.
  - fold (numeric l) (numeric l'). now rewrite IH.
  - fold (numeric l). destruct (isNumber (snd p)), (isNumber (snd q)); reflexivity.
  - congruence.
Qed.

Lemma totalCount_weigh (o : list (string * JS.value)) :
  Z.of_nat (totalCount o) = weigh (fun _ => 1%Z) o.
Proof.
  induction o as [|p o IH]; cbn [totalCount weigh fold_right]; [reflexivity|].
  fold (totalCount o) (weigh (fun _ => 1%Z) o). lia.
Qed.

Lemma sumOver_ones (ks : list string) :
  sumOver (fun _ => 1%Z) ks = Z.of_nat (List.length ks).
Proof.
  induction ks as [|k ks IH]; cbn [sumOver fold_right List.length]; [reflexivity|].
  fold (sumOver (fun _ => 1%Z) ks). lia.
Qed.

(** Counters fed with keys that are not inherited add up to the number of
    keys. *)
Lemma totalCount_bumps (ks : list string) :
  Forall (fun k => JS.inherited k = false) ks ->
  totalCount (JS.entries (fold_left JS.bump ks [])) = List.length ks.
Proof.
  intros Hks. apply Nat2Z.inj.
  rewrite totalCount_weigh, (weigh_perm _ _ _ (entries_perm _)).
  destruct (bumps_numeric ks [] eq_refl Hks) as [_ Hw].
  rewrite Hw, sumOver_ones. reflexivity.
Qed.

(** *** The three counters of the panel *)

Lemma statistics_from (l : list AdminPanel.Survey) (acc : AdminPanel.Stats) :
  fold_left AdminPanel.countSurvey l acc
  = AdminPanel.mkStats
      (fold_left JS.bump (map seguridadKey l) (AdminPanel.seguridadStats acc))
      (fold_left JS.bump (map AdminPanel.calificacion l) (AdminPanel.calificacionStats acc))
      (fold_left JS.bump (flat_map AdminPanel.problemas l) (AdminPanel.problemasStats acc)).
Proof.
  revert acc. induction l as [|e l IH]; intros acc.
  - destruct acc; reflexivity.
  - cbn [fold_left map flat_map]. rewrite IH. unfold AdminPanel.countSurvey.
    cbn [AdminPanel.seguridadStats AdminPanel.calificacionStats AdminPanel.problemasStats].
    rewrite fold_left_app. reflexivity.
Qed.

Lemma statistics_counters (l : list AdminPanel.Survey) :
  AdminPanel.seguridadStats (AdminPanel.statistics l)
    = fold_left JS.bump (map seguridadKey l) []
  /\ AdminPanel.calificacionStats (AdminPanel.statistics l)
    = fold_left JS.bump (map AdminPanel.calificacion l) []
  /\ AdminPanel.problemasStats (AdminPanel.statistics l)
    = fold_left JS.bump (flat_map AdminPanel.problemas l) [].
Proof.
  unfold AdminPanel.statistics. rewrite statistics_from. repeat split.
Qed.

(** *** The sum of the ratings *)

Lemma round53_small (z : Z) : (Z.abs z <= 2 ^ 53)%Z -> JS.round53 z = z.
Proof.
  intros Hz. unfold JS.round53.
  destruct (Z.leb_spec (Z.abs z) (2 ^ 53)); [reflexivity|lia].
Qed.

Lemma inherited_unparsable (k : string) :
  JS.inherited k = true -> JS.parseInt k = JS.NaN.
Proof.
  unfold JS.inherited, JS.prototypeKeys. cbn [existsb]. intros H.
  repeat match type of H with
         | context [String.eqb k ?s] =>
             destruct (String.eqb_spec k s) as [E|_]; [rewrite E; reflexivity|]
         end.
  discriminate H.
Qed.

Lemma parsable_not_inherited (ks : list string) :
  Forall (fun k => JS.parseInt k <> JS.NaN) ks ->
  Forall (fun k => JS.inherited k = false) ks.
Proof.
  apply Forall_impl. intros k Hk.
  destruct (JS.inherited k) eqn:Hi; [|reflexivity].
  elim Hk. apply inherited_unparsable, Hi.
Qed.

Lemma weigh_magnitude_nonneg (o : list (string * JS.value)) :
  (0 <= weigh magnitude o)%Z.
Proof.
  induction o as [|p o IH]; cbn [weigh fold_right]; [lia|].
  fold (weigh magnitude o). unfold magnitude at 1. nia.
Qed.

Lemma fold_addEntry (es : list (string * JS.value)) (a : Z) :
  Forall (fun p => JS.parseInt (fst p) <> JS.NaN) es ->
  numeric es = true ->
  (Z.abs a + weigh magnitude es <= 2 ^ 53)%Z ->
  fold_left addEntry es (JS.Num a) = JS.Num (a + weigh parsed es).
Proof.
  revert a. induction es as [|[k v] es IH]; intros a Hp Hn Hb;
    cbn [fold_left weigh fold_right fst snd] in *.
  - f_equal. lia.
  - fold (weigh magnitude es) in Hb. fold (weigh parsed es).
    inversion Hp as [|? ? Hk Hp']; subst. cbn [fst] in Hk.
    cbn [numeric forallb snd] in Hn. apply andb_true_iff in Hn as [Hv Hn].
    destruct v as [n|]; [|discriminate]. cbn [countOf] in *.
    pose proof (weigh_magnitude_nonneg es) as Hpos.
    unfold addEntry at 2. cbn [fst snd JS.toNumber].
    unfold magnitude at 1 in Hb. unfold parsed in *.
    destruct (JS.parseInt k) as [|z]; [congruence|]. cbn [integerOf] in *.
    cbn [JS.mul JS.add].
    rewrite (round53_small (z * Z.of_nat n)) by nia.
    rewrite (round53_small (a + z * Z.of_nat n)) by nia.
    rewrite IH; [f_equal; lia|exact Hp'|exact Hn|nia].
Qed.

Lemma key_of_put (o : JS.object) (k : string) (v : JS.value) p :
  In p (JS.put o k v) -> fst p = k \/ In p o.
Proof.
  induction o as [|[k0 v0] o IH]; cbn [JS.put].
  - intros [<-|[]]. now left.
  - destruct (String.eqb_spec k0 k) as [->|_]; cbn [In].
    + intros [<-|H]; [now left|now right; right].
    + intros [<-|H]; [now right; left|]. destruct (IH H); [now left|now right; right].
Qed.

Lemma key_of_bumps (ks : list string) (o : JS.object) p :
  In p (fold_left JS.bump ks o) -> In (fst p) ks \/ In p o.
Proof.
  revert o. induction ks as [|k ks IH]; intros o; cbn [fold_left]; [now right|].
  intros H. destruct (IH _ H) as [Hin|Hin]; [now left; right|].
  unfold JS.bump, JS.assign in Hin. destruct (String.eqb k "__proto__").
  - now right.
  - destruct (key_of_put _ _ _ _ Hin) as [<-|]; [now left; left|now right].
Qed.

(** The reduction over the entries of the rating counter adds up the
    ratings one by one, as long as every rating has an integer and the sum
    of their magnitudes stays in the range where doubles are exact. *)
Lemma total_of_parsable (l : list AdminPanel.Survey) :
  Forall (fun k => JS.parseInt k <> JS.NaN) (map AdminPanel.calificacion l) ->
  (sumOver magnitude (map AdminPanel.calificacion l) <= 2 ^ 53)%Z ->
  AdminPanel.totalCalificaciones l
  = JS.Num (sumOver parsed (map AdminPanel.calificacion l)).
Proof.
  intros Hp Hb. unfold AdminPanel.totalCalificaciones.
  destruct (statistics_counters l) as (_ & -> & _).
  set (ks := map AdminPanel.calificacion l) in *.
  destruct (bumps_numeric ks [] eq_refl (parsable_not_inherited _ Hp)) as [Hn Hw].
  pose proof (entries_perm (fold_left JS.bump ks [])) as Hperm.
  change (fold_left _ ?es (JS.Num 0)) with (fold_left addEntry es (JS.Num 0)).
  rewrite fold_addEntry.
  - rewrite (weigh_perm _ _ _ Hperm), Hw. reflexivity.
  - apply Forall_forall. intros p Hin.
    apply (Permutation_in _ Hperm) in Hin.
    destruct (key_of_bumps _ _ _ Hin) as [Hk|[]].
    rewrite Forall_forall in Hp. exact (Hp _ Hk).
  - rewrite (numeric_perm _ _ Hperm). exact Hn.
  - rewrite (weigh_perm _ _ _ Hperm), Hw. cbn. lia.
Qed.

(** *** Doubles: division and one decimal *)

Section Doubles.
Local Open Scope Z_scope.

Lemma digits2_pos_bounds (p : positive) :
  2 ^ (Z.pos (digits2_pos p) - 1) <= Z.pos p < 2 ^ Z.pos (digits2_pos p).
Proof.
  induction p as [p IH|p IH|]; cbn [digits2_pos].
  - rewrite Pos2Z.inj_succ. replace (Z.succ (Z.pos (digits2_pos p)) - 1) with (Z.pos (digits2_pos p)) by lia.
    rewrite Z.pow_succ_r by lia.
    assert (2 ^ Z.pos (digits2_pos p) = 2 * 2 ^ (Z.pos (digits2_pos p) - 1)).
    { rewrite <- Z.pow_succ_r by lia. f_equal. lia. }
    lia.
  - rewrite Pos2Z.inj_succ. replace (Z.succ (Z.pos (digits2_pos p)) - 1) with (Z.pos (digits2_pos p)) by lia.
    rewrite Z.pow_succ_r by lia.
    assert (2 ^ Z.pos (digits2_pos p) = 2 * 2 ^ (Z.pos (digits2_pos p) - 1)).
    { rewrite <- Z.pow_succ_r by lia. f_equal. lia. }
    lia.
  - cbn. lia.
Qed.

Lemma digits2_pos_unique (p : positive) (d : Z) :
  2 ^ (d - 1) <= Z.pos p < 2 ^ d -> Z.pos (digits2_pos p) = d.
Proof.
  intros [Hlo Hhi]. pose proof (digits2_pos_bounds p) as [Blo Bhi].
  assert (0 < d).
  { destruct (Z.ltb_spec 0 d); [assumption|].
    assert (2 ^ d <= 2 ^ 0) by (destruct (Z.ltb_spec d 0); [rewrite Z.pow_neg_r by lia; cbn; lia | apply Z.pow_le_mono_r; lia]).
    cbn in *. lia. }
  destruct (Z.lt_trichotomy (Z.pos (digits2_pos p)) d) as [Hlt|[Heq|Hgt]]; [|exact Heq|].
  - assert (2 ^ Z.pos (digits2_pos p) <= 2 ^ (d - 1)) by (apply Z.pow_le_mono_r; lia). lia.
  - assert (2 ^ d <= 2 ^ (Z.pos (digits2_pos p) - 1)) by (apply Z.pow_le_mono_r; lia). lia.
Qed.

Lemma pos_iter_xO (p k : positive) :
  Z.pos (Pos.iter xO p k) = Z.pos p * 2 ^ Z.pos k.
Proof.
  induction k as [|k IH] using Pos.peano_ind.
  - cbn. lia.
  - rewrite Pos.iter_succ, Pos2Z.inj_xO, IH, Pos2Z.inj_succ, Z.pow_succ_r by lia. lia.
Qed.

Lemma fexp_normal (d e : Z) :
  -1021 <= d + e -> fexp JS.prec JS.emax (d + e) = d + e - 53.
Proof.
  intros H. unfold fexp, emin, JS.prec, JS.emax. lia.
Qed.

Lemma Zdigits2_unique (m d : Z) :
  0 < m -> 2 ^ (d - 1) <= m < 2 ^ d -> Zdigits2 m = d.
Proof.
  intros Hm Hd. destruct m as [|p|p]; try lia. cbn [Zdigits2].
  now apply digits2_pos_unique.
Qed.

Lemma shr_fexp_fits (m e : Z) (l : location) :
  2 ^ 52 <= m < 2 ^ 53 -> -1074 <= e ->
  shr_fexp JS.prec JS.emax m e l = (shr_record_of_loc m l, e).
Proof.
  intros Hm He. unfold shr_fexp.
  rewrite (Zdigits2_unique m 53) by (cbn; lia).
  rewrite fexp_normal by lia.
  replace (53 + e - 53 - e) with 0 by lia. reflexivity.
Qed.

Lemma shr_fexp_over (m e : Z) (l : location) :
  2 ^ 53 <= m < 2 ^ 54 -> -1074 <= e ->
  shr_fexp JS.prec JS.emax m e l = (shr_1 (shr_record_of_loc m l), e + 1).
Proof.
  intros Hm He. unfold shr_fexp.
  rewrite (Zdigits2_unique m 54) by (cbn; lia).
  rewrite fexp_normal by lia.
  replace (54 + e - 53 - e) with 1 by lia. reflexivity.
Qed.

Lemma shr_m_of_loc (m : Z) (l : location) : shr_m (shr_record_of_loc m l) = m.
Proof. destruct l as [|[]]; reflexivity. Qed.

Lemma shr_1_half (mrs : shr_record) :
  0 < shr_m mrs -> shr_m (shr_1 mrs) = shr_m mrs / 2.
Proof.
  destruct mrs as [m r s]. cbn [shr_m]. intros Hm.
  destruct m as [|[p|p|]|p]; try lia; cbn [shr_1 shr_m].
  - rewrite Pos2Z.inj_xI. apply Z.div_unique with 1; lia.
  - rewrite Pos2Z.inj_xO. apply Z.div_unique with 0; lia.
  - reflexivity.
Qed.

Lemma round_nearest_even_near (m : Z) (l : location) :
  round_nearest_even m l = m \/ round_nearest_even m l = m + 1.
Proof.
  destruct l as [|[]]; cbn [round_nearest_even]; auto.
  destruct (Z.even m); auto.
Qed.

(** The second half of [binary_round_aux]: a rounded mantissa between
    [2^52] and [2^53] inclusive is packed, the upper end after one more
    halving. *)
Lemma pack_rounded (s : bool) (r e : Z) :
  2 ^ 52 <= r <= 2 ^ 53 -> -1074 <= e <= 970 ->
  exists (m : positive) (i : Z),
    (let '(mrs, e') := shr_fexp JS.prec JS.emax r e loc_Exact in
     match shr_m mrs with
     | Z0 => S754_zero s
     | Z.pos m => if e' <=? JS.emax - JS.prec then S754_finite s m e' else S754_infinity s
     | Z.neg _ => S754_nan
     end) = S754_finite s m (e + i)
    /\ 0 <= i <= 1 /\ 2 ^ 52 <= Z.pos m < 2 ^ 53 /\ Z.pos m * 2 ^ i = r.
Proof.
  intros Hr He. destruct (Z.eq_dec r (2 ^ 53)) as [->|Hne].
  - exists (4503599627370496%positive), 1.
    rewrite shr_fexp_over by (cbn; lia). cbn [shr_record_of_loc shr_1 shr_m].
    change (shr_m (shr_1 {| shr_m := 2 ^ 53; shr_r := false; shr_s := false |}))
      with (Z.pos 4503599627370496).
    cbv iota beta.
    destruct (Z.leb_spec (e + 1) (JS.emax - JS.prec)) as [_|H];
      [|unfold JS.emax, JS.prec in H; lia].
    repeat split; cbn; lia.
  - assert (Hr' : 2 ^ 52 <= r < 2 ^ 53) by lia.
    rewrite shr_fexp_fits by (assumption || lia). cbn [shr_record_of_loc shr_m].
    destruct r as [|m|m]; try (cbn in Hr'; lia).
    exists m, 0.
    destruct (Z.leb_spec e (JS.emax - JS.prec)) as [_|H];
      [|unfold JS.emax, JS.prec in H; lia].
    rewrite Z.add_0_r. repeat split; try lia. 
Qed.

(** Rounding a truncated quotient [q] of 53 or 54 bits: the result is a
    normal mantissa [m] at an exponent raised by [j], no further than one
    unit in its last place from anything between [q] and [q + 1]. *)
Lemma binary_round_aux_near (s : bool) (q e : Z) (l : location) :
  2 ^ 52 <= q < 2 ^ 54 -> -1074 <= e <= 968 ->
  exists (m : positive) (j : Z),
    binary_round_aux JS.prec JS.emax s q e l = S754_finite s m (e + j)
    /\ 0 <= j <= 2
    /\ 2 ^ 52 <= Z.pos m < 2 ^ 53
    /\ Z.pos m * 2 ^ j - 2 ^ j <= q
    /\ q + 1 <= Z.pos m * 2 ^ j + 2 ^ j.
Proof.
  intros Hq He. unfold binary_round_aux.
  destruct (Z.ltb_spec q (2 ^ 53)) as [Hlt|Hge].
  - rewrite shr_fexp_fits by lia.
    rewrite shr_m_of_loc.
    set (r := round_nearest_even q _).
    assert (Hr : r = q \/ r = q + 1) by apply round_nearest_even_near.
    destruct (pack_rounded s r e) as (m & i & Heq & Hi & Hm & Hv); [lia|lia|].
    exists m, i. split; [exact Heq|].
    assert (i = 0 \/ i = 1) as [->| ->] by lia;
      rewrite ?Z.pow_0_r, ?Z.pow_1_r in *; repeat split; lia.
  - rewrite shr_fexp_over by lia.
    set (mrs := shr_1 (shr_record_of_loc q l)).
    assert (Hh : shr_m mrs = q / 2).
    { unfold mrs. rewrite shr_1_half; rewrite shr_m_of_loc; [reflexivity|lia]. }
    set (r := round_nearest_even (shr_m mrs) _).
    assert (Hr : r = q / 2 \/ r = q / 2 + 1).
    { rewrite <- Hh. apply round_nearest_even_near. }
    assert (Hdiv : 2 * (q / 2) <= q < 2 * (q / 2) + 2).
    { pose proof (Z.div_mod q 2 ltac:(lia)). pose proof (Z.mod_pos_bound q 2 ltac:(lia)). lia. }
    destruct (pack_rounded s r (e + 1)) as (m & i & Heq & Hi & Hm & Hv); [lia|lia|].
    exists m, (1 + i). replace (e + (1 + i)) with (e + 1 + i) by lia.
    split; [exact Heq|].
    assert (i = 0 \/ i = 1) as [->| ->] by lia;
      [change (2 ^ (1 + 0)) with 2|change (2 ^ (1 + 1)) with 4];
      rewrite ?Z.pow_0_r, ?Z.pow_1_r in *; repeat split; lia.
Qed.

Lemma fexp_53 (x : Z) : -1021 <= x -> fexp JS.prec JS.emax x = x - 53.
Proof.
  intros H. unfold fexp, emin, JS.prec, JS.emax. lia.
Qed.

Lemma binary_round_aux_exact (s : bool) (m : positive) (e : Z) :
  2 ^ 52 <= Z.pos m < 2 ^ 53 -> -1074 <= e <= 971 ->
  binary_round_aux JS.prec JS.emax s (Z.pos m) e loc_Exact = S754_finite s m e.
Proof.
  intros Hm He. unfold binary_round_aux.
  rewrite shr_fexp_fits by lia. cbn [shr_record_of_loc shr_m loc_of_shr_record round_nearest_even].
  rewrite shr_fexp_fits by lia. cbn [shr_record_of_loc shr_m].
  destruct (Z.leb_spec e (JS.emax - JS.prec)) as [_|H];
    [reflexivity|unfold JS.emax, JS.prec in H; lia].
Qed.

(** The double of a positive integer below [2^53]: the integer itself,
    shifted to 53 bits. *)
Lemma binary_round_integer (s : bool) (p : positive) :
  Z.pos p < 2 ^ 53 ->
  exists (m : positive) (a : Z),
    binary_round JS.prec JS.emax s p 0 = S754_finite s m (- a)
    /\ 0 <= a <= 52 /\ 2 ^ 52 <= Z.pos m < 2 ^ 53 /\ Z.pos m = Z.pos p * 2 ^ a.
Proof.
  intros Hp. unfold binary_round.
  pose proof (digits2_pos_bounds p) as [Hlo Hhi].
  set (d := Z.pos (digits2_pos p)) in *.
  assert (Hd : 1 <= d <= 53).
  { split; [unfold d; lia|].
    destruct (Z.leb_spec d 53); [assumption|].
    assert (2 ^ 53 <= 2 ^ (d - 1)) by (apply Z.pow_le_mono_r; lia). lia. }
  rewrite Z.add_0_r, fexp_53 by lia.
  unfold shl_align. rewrite Z.sub_0_r.
  destruct (Z.eq_dec d 53) as [E|NE].
  - replace (d - 53) with 0 by lia. cbv iota beta.
    exists p, 0. rewrite E in *.
    rewrite binary_round_aux_exact by lia.
    repeat split; try lia.
  - destruct (d - 53) as [|k|k] eqn:Ek; try lia.
    assert (Hk : Z.pos k = 53 - d) by lia.
    assert (Hm : Z.pos (Pos.iter xO p k) = Z.pos p * 2 ^ (53 - d))
      by (rewrite pos_iter_xO, Hk; reflexivity).
    assert (Hpow : 2 ^ 53 = 2 ^ d * 2 ^ (53 - d))
      by (rewrite <- Z.pow_add_r by lia; f_equal; lia).
    assert (Hpow' : 2 ^ 52 = 2 ^ (d - 1) * 2 ^ (53 - d))
      by (rewrite <- Z.pow_add_r by lia; f_equal; lia).
    assert (0 < 2 ^ (53 - d)) by (apply Z.pow_pos_nonneg; lia).
    exists (Pos.iter xO p k), (53 - d).
    rewrite binary_round_aux_exact.
    + replace (- (53 - d)) with (Z.neg k) by lia. repeat split; try lia.
      all: rewrite ?Hm; nia.
    + rewrite Hm. nia.
    + lia.
Qed.

Lemma double_of_integer (z : Z) :
  0 < z < 2 ^ 53 ->
  exists (m : positive) (a : Z),
    JS.double_of_Z z = S754_finite false m (- a)
    /\ JS.double_of_Z (- z) = S754_finite true m (- a)
    /\ 0 <= a <= 52 /\ 2 ^ 52 <= Z.pos m < 2 ^ 53 /\ Z.pos m = z * 2 ^ a.
Proof.
  intros Hz. destruct z as [|p|p]; try lia.
  unfold JS.double_of_Z. cbn [binary_normalize Z.opp].
  destruct (binary_round_integer false p) as (m & a & Hf & Ha & Hm & Hv); [lia|].
  destruct (binary_round_integer true p) as (m' & a' & Ht & Ha' & Hm' & Hv'); [lia|].
  assert (a = a').
  { destruct (Z.lt_trichotomy a a') as [H|[H|H]]; [|exact H|].
    - assert (2 * 2 ^ a <= 2 ^ a') by (rewrite <- Z.pow_succ_r by lia; apply Z.pow_le_mono_r; lia). nia.
    - assert (2 * 2 ^ a' <= 2 ^ a) by (rewrite <- Z.pow_succ_r by lia; apply Z.pow_le_mono_r; lia). nia. }
  subst a'. assert (m = m') by lia. subst m'.
  exists m, a. repeat split; try assumption; lia.
Qed.

(** Division of two normal doubles: a normal double no further than one
    unit in its last place from the quotient. *)
Lemma SFdiv_near (s1 s2 : bool) (m1 m2 : positive) (e1 e2 : Z) :
  2 ^ 52 <= Z.pos m1 < 2 ^ 53 -> 2 ^ 52 <= Z.pos m2 < 2 ^ 53 ->
  -52 <= e1 <= 0 -> -52 <= e2 <= 0 ->
  exists (m : positive) (j : Z),
    SFdiv JS.prec JS.emax (S754_finite s1 m1 e1) (S754_finite s2 m2 e2)
    = S754_finite (xorb s1 s2) m (e1 - e2 - 53 + j)
    /\ 0 <= j <= 2
    /\ 2 ^ 52 <= Z.pos m < 2 ^ 53
    /\ (Z.pos m * 2 ^ j - 2 ^ j) * Z.pos m2 <= Z.pos m1 * 2 ^ 53
    /\ Z.pos m1 * 2 ^ 53 < (Z.pos m * 2 ^ j + 2 ^ j) * Z.pos m2.
Proof.
  intros Hm1 Hm2 He1 He2. unfold SFdiv, SFdiv_core_binary. cbn [Zdigits2].
  rewrite (digits2_pos_unique m1 53), (digits2_pos_unique m2 53) by (cbn; lia).
  rewrite fexp_53 by lia.
  replace (Z.min (53 + e1 - (53 + e2) - 53) (e1 - e2)) with (e1 - e2 - 53) by lia.
  replace (e1 - e2 - (e1 - e2 - 53)) with 53 by lia.
  rewrite Z.shiftl_mul_pow2 by lia.
  pose proof (Z_div_mod (Z.pos m1 * 2 ^ 53) (Z.pos m2) ltac:(lia)) as Hdiv.
  destruct (Z.div_eucl (Z.pos m1 * 2 ^ 53) (Z.pos m2)) as [q r].
  destruct Hdiv as [Hq Hr].
  assert (Hqb : 2 ^ 52 <= q < 2 ^ 54).
  { change (2 ^ 53) with (2 * 2 ^ 52) in *. change (2 ^ 54) with (4 * 2 ^ 52).
    generalize dependent (2 ^ 52). intros P Hm1 Hm2 Hq. split.
    - destruct (Z.leb_spec P q); [assumption|].
      assert (Z.pos m2 * q + r < Z.pos m2 * P) by nia. nia.
    - destruct (Z.ltb_spec q (4 * P)); [assumption|].
      assert (Z.pos m2 * (4 * P) <= Z.pos m2 * q) by nia. nia. }
  destruct (binary_round_aux_near (xorb s1 s2) q (e1 - e2 - 53)
              (new_location (Z.pos m2) r) Hqb) as (m & j & Heq & Hj & Hm & Hlo & Hhi);
    [lia|].
  exists m, j. split; [exact Heq|]. 
  assert (0 < 2 ^ j) by (apply Z.pow_pos_nonneg; lia).
  repeat split; try lia; nia.
Qed.

Lemma SFdiv_sign (s1 s2 s1' s2' : bool) (m1 m2 : positive) (e1 e2 : Z)
    (s : bool) (m : positive) (e : Z) :
  SFdiv JS.prec JS.emax (S754_finite s1 m1 e1) (S754_finite s2 m2 e2)
    = S754_finite s m e ->
  SFdiv JS.prec JS.emax (S754_finite s1' m1 e1) (S754_finite s2' m2 e2)
    = S754_finite (xorb s1' s2') m e.
Proof.
  unfold SFdiv.
  destruct (SFdiv_core_binary JS.prec JS.emax (Z.pos m1) e1 (Z.pos m2) e2) as [[mz ez] lz].
  unfold binary_round_aux.
  destruct (shr_fexp JS.prec JS.emax mz ez lz) as [mrs' e'].
  destruct (shr_fexp JS.prec JS.emax _ e' loc_Exact) as [mrs'' e''].
  destruct (shr_m mrs''); try discriminate.
  destruct (e'' <=? JS.emax - JS.prec); try discriminate.
  intros H. injection H as _ -> ->. reflexivity.
Qed.

(** The quotient of two integers as a double: a mantissa [m] of 53 bits
    over a power of two [D], within one unit in the last place. *)
Lemma quotient_near (t n : Z) :
  0 < t <= 2 ^ 47 -> 0 < n < 2 ^ 53 ->
  exists (m : positive) (E : Z),
    JS.div (JS.Num t) (JS.Num n) = S754_finite false m E
    /\ JS.div (JS.Num (- t)) (JS.Num n) = S754_finite true m E
    /\ E < 0
    /\ Z.abs (Z.pos m * n - t * 2 ^ (- E)) <= n
    /\ 20 * n < 2 ^ (- E).
Proof.
  intros Ht Hn. unfold JS.div.
  destruct (double_of_integer t) as (m1 & a & Ht1 & Ht2 & Ha & Hm1 & Hv1); [cbn in *; lia|].
  destruct (double_of_integer n) as (m2 & b & Hn1 & _ & Hb & Hm2 & Hv2); [lia|].
  rewrite Ht1, Ht2, Hn1.
  destruct (SFdiv_near false false m1 m2 (- a) (- b)) as (m & j & Heq & Hj & Hm & Hlo & Hhi);
    try lia.
  exists m, (- a - - b - 53 + j). rewrite Heq.
  rewrite (SFdiv_sign _ _ true false _ _ _ _ _ _ _ Heq). cbn [xorb].
  set (A := 2 ^ (a + 53)). set (B := 2 ^ (b + j)).
  assert (HA : Z.pos m1 * 2 ^ 53 = t * A).
  { unfold A. rewrite Z.pow_add_r by lia. lia. }
  assert (HB1 : (Z.pos m * 2 ^ j - 2 ^ j) * Z.pos m2 = (Z.pos m - 1) * n * B).
  { unfold B. rewrite Z.pow_add_r by lia. lia. }
  assert (HB2 : (Z.pos m * 2 ^ j + 2 ^ j) * Z.pos m2 = (Z.pos m + 1) * n * B).
  { unfold B. rewrite Z.pow_add_r by lia. lia. }
  rewrite HA, HB1 in Hlo. rewrite HA, HB2 in Hhi.
  assert (HBpos : 0 < B) by (apply Z.pow_pos_nonneg; lia).
  assert (HApos : 0 < A) by (apply Z.pow_pos_nonneg; lia).
  assert (HE : - a - - b - 53 + j < 0).
  { destruct (Z.ltb_spec (- a - - b - 53 + j) 0); [assumption|].
    assert (A <= B) by (apply Z.pow_le_mono_r; lia).
    assert ((Z.pos m - 1) * n * A <= t * A) by nia.
    assert ((Z.pos m - 1) * n <= t) by nia.
    change (2 ^ 52) with 4503599627370496 in *. change (2 ^ 47) with 140737488355328 in *. nia. }
  set (D := 2 ^ (- (- a - - b - 53 + j))).
  assert (HD : A = B * D).
  { unfold A, B, D. rewrite <- Z.pow_add_r by lia. f_equal. lia. }
  assert (HDpos : 0 < D) by (apply Z.pow_pos_nonneg; lia).
  rewrite HD in Hlo, Hhi.
  assert (H1 : (Z.pos m - 1) * n <= t * D) by nia.
  assert (H2 : t * D < (Z.pos m + 1) * n) by nia.
  repeat split; try lia.
  change (2 ^ 52) with 4503599627370496 in *. change (2 ^ 47) with 140737488355328 in *.
  destruct (Z.ltb_spec (20 * n) D); [assumption|]. nia.
Qed.

(** Rounding such a double to tenths gives a nearest tenth of the exact
    quotient. *)
Lemma tenths_nearest (m t n E : Z) :
  0 < n -> E < 0 ->
  Z.abs (m * n - t * 2 ^ (- E)) <= n -> 20 * n < 2 ^ (- E) ->
  2 * Z.abs (JS.tenths m E * n - 10 * t) <= n.
Proof.
  intros Hn HE Hnear Hbig. unfold JS.tenths.
  destruct (Z.leb_spec 0 E); [lia|].
  rewrite Z.pow_add_r by lia. change (2 ^ 1) with 2.
  set (D := 2 ^ (- E)) in *.
  assert (HD : 0 < D) by lia.
  pose proof (Z.div_mod (20 * m + D) (D * 2) ltac:(lia)) as Hdm.
  pose proof (Z.mod_pos_bound (20 * m + D) (D * 2) ltac:(lia)) as Hmb.
  set (q := (20 * m + D) / (D * 2)) in *.
  assert (Hup : D * (2 * q * n - 20 * t) < D * (n + 1)) by nia.
  assert (Hdn : D * (- (n + 1)) < D * (2 * q * n - 20 * t)) by nia.
  assert (2 * q * n - 20 * t < n + 1) by nia.
  assert (- (n + 1) < 2 * q * n - 20 * t) by nia.
  lia.
Qed.

Lemma tenths_nonneg (m : positive) (E : Z) : (0 <= JS.tenths (Z.pos m) E)%Z.
Proof.
  unfold JS.tenths. destruct (Z.leb_spec 0 E).
  - assert (0 < 2 ^ E)%Z by (apply Z.pow_pos_nonneg; lia). lia.
  - assert (0 < 2 ^ (- E))%Z by (apply Z.pow_pos_nonneg; lia).
    assert (0 < 2 ^ (- E + 1))%Z by (apply Z.pow_pos_nonneg; lia).
    apply Z.div_pos; lia.
Qed.

(** [toFixed(1)] of the quotient of two integers shows a nearest tenth of
    the exact quotient. *)
Lemma toFixed1_nearest (t n : Z) :
  (Z.abs t <= 2 ^ 47)%Z -> (0 < n < 2 ^ 53)%Z ->
  exists q : Z,
    (0 <= q)%Z
    /\ (2 * Z.abs (q * n - 10 * Z.abs t) <= n)%Z
    /\ JS.toFixed1 (JS.div (JS.Num t) (JS.Num n)) = signText t ++ oneDecimal q.
Proof.
  intros Ht Hn. destruct (Z.lt_trichotomy t 0) as [Hneg|[->|Hpos]].
  - destruct (quotient_near (- t) n) as (m & E & _ & Hdiv & HE & Hnear & Hbig); [lia|lia|].
    rewrite Z.opp_involutive in Hdiv. rewrite Hdiv.
    exists (JS.tenths (Z.pos m) E). split; [apply tenths_nonneg|]. split.
    + replace (Z.abs t) with (- t)%Z by lia. now apply tenths_nearest.
    + unfold signText. destruct (Z.ltb_spec t 0); [reflexivity|lia].
  - exists 0%Z. split; [lia|]. split; [cbn; lia|].
    destruct (double_of_integer n) as (m2 & b & Hn1 & _); [lia|].
    unfold JS.div. rewrite Hn1. reflexivity.
  - destruct (quotient_near t n) as (m & E & Hdiv & _ & HE & Hnear & Hbig); [lia|lia|].
    rewrite Hdiv.
    exists (JS.tenths (Z.pos m) E). split; [apply tenths_nonneg|]. split.
    + replace (Z.abs t) with t by lia. now apply tenths_nearest.
    + unfold signText. destruct (Z.ltb_spec t 0); [lia|reflexivity].
Qed.

End Doubles.

(** *** The average rating *)

(** C1, as stated, fails: a document without rating is read as a rating of
    three, so alone it gives the average [3.0], where a missing rating
    counted as zero would give [0.0]. *)
Lemma average_missing_rating_is_three :
  AdminPanel.promedioCalificacion (map AdminPanel.fetchedSurvey [unrated])
    = AdminPanel.ShownText "3.0"
  /\ zeroDefaultAverage [unrated] = AdminPanel.ShownText "0.0"
  /\ AdminPanel.promedioCalificacion (map AdminPanel.fetchedSurvey [unrated])
     <> zeroDefaultAverage [unrated].
Proof.
  repeat split; try (vm_compute; reflexivity). vm_compute. discriminate.
Qed.

(** A rating that has no integer does not count as zero either: it turns
    the whole average into [NaN]. *)
Lemma average_of_unparsable_rating :
  AdminPanel.promedioCalificacion (map AdminPanel.fetchedSurvey [misrated])
  = AdminPanel.ShownText "NaN".
Proof. vm_compute. reflexivity. Qed.

Lemma abs_sumOver (ks : list string) :
  (Z.abs (sumOver parsed ks) <= sumOver magnitude ks)%Z.
Proof.
  induction ks as [|k ks IH]; cbn [sumOver fold_right]; [lia|].
  fold (sumOver parsed ks) (sumOver magnitude ks). unfold magnitude at 1. lia.
Qed.

(** C1, amended.  A missing or empty rating is stored in memory as [3].
    When every rating in memory has an integer (their magnitudes adding up
    to at most [2^47], in an array of fewer than [2^32] elements), the
    average shown is the sum of these integers divided by the number of
    documents and formatted by [toFixed(1)], which is that quotient
    rounded to a nearest tenth and written with one decimal; with no
    document at all it is the number [0]. *)
Theorem average_rating (items : list Server.Respuesta) :
  Forall (fun k => JS.parseInt k <> JS.NaN) (map storedRating items) ->
  (sumOver magnitude (map storedRating items) <= 2 ^ 47)%Z ->
  (Z.of_nat (List.length items) < 2 ^ 32)%Z ->
  match items with
  | [] =>
      AdminPanel.promedioCalificacion (map AdminPanel.fetchedSurvey items)
      = AdminPanel.ShownNumber 0
  | _ :: _ =>
      AdminPanel.promedioCalificacion (map AdminPanel.fetchedSurvey items)
      = AdminPanel.ShownText
          (JS.toFixed1 (JS.div (JS.Num (sumOver parsed (map storedRating items)))
                               (JS.Num (Z.of_nat (List.length items)))))
      /\ exists q : Z,
           (0 <= q)%Z
           /\ (2 * Z.abs (q * Z.of_nat (List.length items)
                          - 10 * Z.abs (sumOver parsed (map storedRating items)))
               <= Z.of_nat (List.length items))%Z
           /\ AdminPanel.promedioCalificacion (map AdminPanel.fetchedSurvey items)
              = AdminPanel.ShownText
                  (signText (sumOver parsed (map storedRating items)) ++ oneDecimal q)
  end.
Proof.
  intros Hp Hb Hlen.
  assert (Hks : map AdminPanel.calificacion (map AdminPanel.fetchedSurvey items)
                = map storedRating items)
    by (rewrite map_map; reflexivity).
  unfold AdminPanel.promedioCalificacion. rewrite length_map.
  destruct items as [|item items]; [reflexivity|].
  set (l := item :: items) in *.
  replace (0 <? List.length l)%nat with true by reflexivity.
  rewrite total_of_parsable; rewrite Hks; [|exact Hp|lia].
  split; [reflexivity|].
  destruct (toFixed1_nearest (sumOver parsed (map storedRating l))
              (Z.of_nat (List.length l))) as (q & Hq & Hnear & Heq).
  - pose proof (abs_sumOver (map storedRating l)). lia.
  - unfold l in *. cbn [List.length] in *. lia.
  - exists q. rewrite Heq. repeat split; assumption.
Qed.

(** *** The counter of problems *)

Lemma fromOne_put (o : JS.object) (k : string) (n : nat) :
  fromOne o = true -> fromOne (JS.put o k (JS.VNum (n + 1))) = true.
Proof.
  induction o as [|[k0 v0] o IH]; cbn [JS.put fromOne forallb snd].
  - intros _. now replace (n + 1) with (S n) by lia.
  - intros Hn. apply andb_true_iff in Hn as [Hv Hn].
    destruct (String.eqb k0 k); cbn [fromOne forallb snd].
    + replace (n + 1) with (S n) by lia. exact Hn.
    + rewrite Hv. exact (IH Hn).
Qed.

Lemma fromOne_numeric (o : JS.object) : fromOne o = true -> numeric o = true.
Proof.
  induction o as [|[k v] o IH]; cbn [fromOne numeric forallb snd]; [reflexivity|].
  intros H. apply andb_true_iff in H as [Hv Ho]. apply andb_true_iff. split.
  - destruct v; [reflexivity|discriminate].
  - exact (IH Ho).
Qed.

Lemma own_fromOne (o : JS.object) (k : string) (v : JS.value) :
  fromOne o = true -> JS.own o k = Some v -> exists n, v = JS.VNum (S n).
Proof.
  induction o as [|[k0 v0] o IH]; cbn [fromOne forallb JS.own snd]; [discriminate|].
  intros Hn Ho. apply andb_true_iff in Hn as [Hv Hn].
  destruct (String.eqb k0 k); [|exact (IH Hn Ho)].
  injection Ho as <-. destruct v0 as [[|n]|]; try discriminate. now exists n.
Qed.

Lemma held_bump (o : JS.object) (k k' : string) :
  fromOne o = true -> JS.inherited k = false ->
  fromOne (JS.bump o k) = true
  /\ held (JS.bump o k) k' = held o k' + (if String.eqb k k' then 1 else 0).
Proof.
  intros Hp Hk. unfold JS.bump, JS.assign.
  rewrite (inherited_proto _ Hk), (next_numeric _ _ (fromOne_numeric _ Hp) Hk). split.
  - apply fromOne_put, Hp.
  - unfold held. rewrite own_put.
    destruct (String.eqb_spec k k') as [->|]; [reflexivity|].
    destruct (JS.own o k'); lia.
Qed.

Lemma held_bumps (ks : list string) (o : JS.object) (k' : string) :
  fromOne o = true -> Forall (fun k => JS.inherited k = false) ks ->
  fromOne (fold_left JS.bump ks o) = true
  /\ held (fold_left JS.bump ks o) k' = held o k' + occurrences k' ks.
Proof.
  revert o. induction ks as [|k ks IH]; intros o Hp Hks;
    cbn [fold_left occurrences count_occ].
  - split; [exact Hp|unfold occurrences; cbn; lia].
  - inversion Hks as [|? ? Hk Hks']; subst.
    destruct (held_bump o k k' Hp Hk) as [Hp' Hh].
    destruct (IH _ Hp' Hks') as [Hp'' Hh'']. split; [exact Hp''|].
    rewrite Hh'', Hh. unfold occurrences. cbn [count_occ].
    destruct (string_dec k k') as [->|Hne].
    + rewrite String.eqb_refl. lia.
    + apply String.eqb_neq in Hne. rewrite Hne. lia.
Qed.

(** With keys that are not inherited, the object holds under each key the
    number of its occurrences, and nothing under a key that did not
    occur. *)
Lemma own_bumps (ks : list string) (k : string) :
  Forall (fun k => JS.inherited k = false) ks ->
  JS.own (fold_left JS.bump ks []) k
  = match occurrences k ks with
    | O => None
    | S n => Some (JS.VNum (S n))
    end.
Proof.
  intros Hks. destruct (held_bumps ks [] k eq_refl Hks) as [Hp Hh].
  unfold held in Hh. cbn [JS.own] in Hh. rewrite Nat.add_0_l in Hh.
  destruct (JS.own (fold_left JS.bump ks []) k) as [v|] eqn:Ho.
  - destruct (own_fromOne _ _ _ Hp Ho) as [n ->]. cbn [countOf] in Hh.
    rewrite <- Hh. reflexivity.
  - rewrite <- Hh. reflexivity.
Qed.

(** C2, as stated, fails: the split keeps the empty token between two
    separators, which gets a bucket of its own, and the buckets then add
    up to three for a document that has two tags once empty tokens are
    discarded. *)
Lemma issue_counts_keep_empty_token :
  storedTags gapped = ["robo"; ""; "iluminacion"]
  /\ discardingTags gapped = ["robo"; "iluminacion"]
  /\ JS.own (AdminPanel.problemasStats
               (AdminPanel.statistics (map AdminPanel.fetchedSurvey [gapped]))) ""
     = Some (JS.VNum 1)
  /\ documentsWith "" [gapped] = 0
  /\ totalCount (JS.entries (AdminPanel.problemasStats
       (AdminPanel.statistics (map AdminPanel.fetchedSurvey [gapped])))) = 3
  /\ List.length (discardingTags gapped) = 2
  /\ held (AdminPanel.problemasStats
             (AdminPanel.statistics (map AdminPanel.fetchedSurvey [gapped]))) ""
     <> documentsWith "" [gapped].
Proof.
  repeat split; try (vm_compute; reflexivity). vm_compute. discriminate.
Qed.

Lemma flat_map_fetched (items : list Server.Respuesta) :
  flat_map AdminPanel.problemas (map AdminPanel.fetchedSurvey items) = allTags items.
Proof.
  unfold allTags, storedTags.
  induction items as [|item items IH]; cbn [map flat_map]; [reflexivity|].
  now rewrite IH.
Qed.

(** C2, amended.  The tags of a document are the tokens of its stored
    string split at the separator, empty tokens included, and none at all
    for an absent or empty string.  As long as no token is the name of a
    member of [Object.prototype], the counter holds under each token the
    number of its occurrences over all documents, nothing under any other
    key, and the counts add up to the number of tokens. *)
Theorem issue_counts (items : list Server.Respuesta) :
  Forall (fun t => JS.inherited t = false) (allTags items) ->
  (forall item,
     storedTags item
     = match Server.problemas item with
       | Some (String c s) => JS.split ", " (String c s)
       | Some EmptyString | None => []
       end)
  /\ (forall tag,
        JS.own (AdminPanel.problemasStats
                  (AdminPanel.statistics (map AdminPanel.fetchedSurvey items))) tag
        = match occurrences tag (allTags items) with
          | O => None
          | S n => Some (JS.VNum (S n))
          end)
  /\ totalCount (JS.entries (AdminPanel.problemasStats
       (AdminPanel.statistics (map AdminPanel.fetchedSurvey items))))
     = List.length (allTags items).
Proof.
  intros Hks.
  destruct (statistics_counters (map AdminPanel.fetchedSurvey items)) as (_ & _ & ->).
  rewrite flat_map_fetched. repeat split.
  - intros item. unfold storedTags, AdminPanel.fetchedSurvey.
    cbn [AdminPanel.problemas].
    destruct (Server.problemas item) as [[|c s]|]; reflexivity.
  - intros tag. apply own_bumps, Hks.
  - apply totalCount_bumps, Hks.
Qed.

(** *** One occurrence per survey *)

(** With values that are not inherited names, each survey adds one to the
    counter of its answer and one to the counter of its rating. *)
Lemma counters_add_up (l : list AdminPanel.Survey) :
  Forall (fun e => JS.inherited (seguridadKey e) = false) l ->
  Forall (fun e => JS.inherited (AdminPanel.calificacion e) = false) l ->
  totalCount (JS.entries (AdminPanel.seguridadStats (AdminPanel.statistics l)))
    = List.length l
  /\ totalCount (JS.entries (AdminPanel.calificacionStats (AdminPanel.statistics l)))
    = List.length l.
Proof.
  intros Hs Hc. destruct (statistics_counters l) as (-> & -> & _).
  split.
  - rewrite totalCount_bumps; [apply length_map|]. now apply Forall_map.
  - rewrite totalCount_bumps; [apply length_map|]. now apply Forall_map.
Qed.

(** C10 at [protoDocument]: the assignment to the key [__proto__] is
    swallowed by the inherited setter, so the survey is counted in neither
    table: one survey, no entry. *)
Theorem counters_miss_proto_key :
  List.length (map AdminPanel.fetchedSurvey [protoDocument]) = 1
  /\ JS.entries (AdminPanel.seguridadStats
       (AdminPanel.statistics (map AdminPanel.fetchedSurvey [protoDocument]))) = []
  /\ JS.entries (AdminPanel.calificacionStats
       (AdminPanel.statistics (map AdminPanel.fetchedSurvey [protoDocument]))) = []
  /\ totalCount (JS.entries (AdminPanel.seguridadStats
       (AdminPanel.statistics (map AdminPanel.fetchedSurvey [protoDocument])))) = 0.
Proof.
  repeat split; vm_compute; reflexivity.
Qed.

(** *** The order of the entries *)

Lemma keys_put (o : JS.object) (k : string) (v : JS.value) :
  map fst (JS.put o k v) = noteKey (map fst o) k.
Proof.
  unfold noteKey.
  induction o as [|[k0 v0] o IH]; cbn [JS.put map fst existsb]; [reflexivity|].
  rewrite (String.eqb_sym k k0).
  destruct (String.eqb k0 k); cbn [orb map fst]; [reflexivity|].
  rewrite IH. destruct (existsb (String.eqb k) (map fst o)); reflexivity.
Qed.

Lemma keys_bumps (ks : list string) (o : JS.object) :
  Forall (fun k => JS.inherited k = false) ks ->
  map fst (fold_left JS.bump ks o) = fold_left noteKey ks (map fst o).
Proof.
  revert o. induction ks as [|k ks IH]; intros o Hks; cbn [fold_left]; [reflexivity|].
  inversion Hks as [|? ? Hk Hks']; subst.
  rewrite (IH _ Hks'). unfold JS.bump, JS.assign.
  rewrite (inherited_proto _ Hk), keys_put. reflexivity.
Qed.

Lemma entries_named (o : JS.object) :
  Forall (fun p => JS.arrayIndex (fst p) = None) o -> JS.entries o = o.
Proof.
  intros Ho. unfold JS.entries, JS.named.
  assert (Hi : JS.indexed o = []).
  { induction Ho as [|[k v] o Hk _ IH]; cbn [JS.indexed fst] in *; [reflexivity|].
    now rewrite Hk. }
  rewrite Hi. cbn [map app].
  induction Ho as [|[k v] o Hk _ IH]; cbn [filter fst] in *; [reflexivity|].
  rewrite Hk, IH; [reflexivity|].
  cbn [JS.indexed] in Hi. now rewrite Hk in Hi.
Qed.

(** When no key is an array index (nor inherited), [Object.entries] lists
    the keys of a counter in the order in which they were first counted. *)
Lemma entries_in_encounter_order (ks : list string) :
  Forall (fun k => JS.inherited k = false) ks ->
  Forall (fun k => JS.arrayIndex k = None) ks ->
  map fst (JS.entries (fold_left JS.bump ks [])) = firstSeen ks.
Proof.
  intros Hks Hidx. rewrite entries_named.
  - apply (keys_bumps ks [] Hks).
  - apply Forall_forall. intros p Hp.
    destruct (key_of_bumps _ _ _ Hp) as [Hk|[]].
    rewrite Forall_forall in Hidx. exact (Hidx _ Hk).
Qed.

(** *** The most frequent problems *)

Section Sorting.
Context {A : Type} (cmp : A -> A -> Z).

Lemma insertSorted_perm (x : A) (l : list A) :
  Permutation (JS.insertSorted cmp x l) (x :: l).
Proof.
  induction l as [|y l IH]; cbn [JS.insertSorted]; [reflexivity|].
  destruct (cmp x y <=? 0)%Z; [reflexivity|].
  rewrite IH. apply perm_swap.
Qed.

Lemma sort_perm (l : list A) : Permutation (JS.sort cmp l) l.
Proof.
  induction l as [|x l IH]; cbn [JS.sort]; [reflexivity|].
  rewrite insertSorted_perm. now constructor.
Qed.
End Sorting.

Lemma byCountDesc_numeric (a b : string * JS.value) :
  isNumber (snd a) = true -> isNumber (snd b) = true ->
  JS.byCountDesc a b = (Z.of_nat (countOf (snd b)) - Z.of_nat (countOf (snd a)))%Z.
Proof.
  unfold JS.byCountDesc. destruct (snd a), (snd b); cbn; congruence.
Qed.

Lemma insertSorted_descending (x : string * JS.value) (l : list (string * JS.value)) :
  isNumber (snd x) = true -> numeric l = true ->
  StronglySorted descending l ->
  StronglySorted descending (JS.insertSorted JS.byCountDesc x l).
Proof.
  intros Hx. induction l as [|y l IH]; intros Hn Hs; cbn [JS.insertSorted].
  - repeat constructor.
  - cbn [numeric forallb] in Hn. apply andb_true_iff in Hn as [Hy Hn].
    apply StronglySorted_inv in Hs as [Hs Hall].
    rewrite (byCountDesc_numeric _ _ Hx Hy).
    destruct (Z.leb_spec (Z.of_nat (countOf (snd y)) - Z.of_nat (countOf (snd x))) 0).
    + constructor; [constructor; assumption|].
      constructor; [unfold descending; lia|].
      eapply Forall_impl; [|exact Hall]. unfold descending. intros z Hz. lia.
    + constructor; [exact (IH Hn Hs)|].
      eapply Permutation_Forall; [symmetry; apply insertSorted_perm|].
      constructor; [unfold descending; lia|exact Hall].
Qed.

Lemma sort_descending (l : list (string * JS.value)) :
  numeric l = true -> StronglySorted descending (JS.sort JS.byCountDesc l).
Proof.
  induction l as [|x l IH]; cbn [JS.sort]; [constructor|].
  cbn [numeric forallb]. intros Hn. apply andb_true_iff in Hn as [Hx Hn].
  apply insertSorted_descending; [exact Hx| |exact (IH Hn)].
  rewrite (numeric_perm _ _ (sort_perm _ l)). exact Hn.
Qed.

Lemma insertSorted_sameCount (n : nat) (x : string * JS.value) l :
  isNumber (snd x) = true -> numeric l = true ->
  filter (sameCount n) (JS.insertSorted JS.byCountDesc x l)
  = filter (sameCount n) (x :: l).
Proof.
  intros Hx. induction l as [|y l IH]; intros Hn; cbn [JS.insertSorted]; [reflexivity|].
  cbn [numeric forallb] in Hn. apply andb_true_iff in Hn as [Hy Hn].
  rewrite (byCountDesc_numeric _ _ Hx Hy).
  destruct (Z.leb_spec (Z.of_nat (countOf (snd y)) - Z.of_nat (countOf (snd x))) 0);
    [reflexivity|].
  cbn [filter] in *. rewrite (IH Hn). unfold sameCount.
  destruct (Nat.eqb_spec (countOf (snd x)) n), (Nat.eqb_spec (countOf (snd y)) n);
    try reflexivity. lia.
Qed.

Lemma sort_sameCount (n : nat) (l : list (string * JS.value)) :
  numeric l = true ->
  filter (sameCount n) (JS.sort JS.byCountDesc l) = filter (sameCount n) l.
Proof.
  induction l as [|x l IH]; cbn [JS.sort]; [reflexivity|].
  cbn [numeric forallb]. intros Hn. apply andb_true_iff in Hn as [Hx Hn].
  rewrite insertSorted_sameCount.
  - cbn [filter]. now rewrite (IH Hn).
  - exact Hx.
  - rewrite (numeric_perm _ _ (sort_perm _ l)). exact Hn.
Qed.

(** What the list of most frequent problems is when no tag is the name of
    a member of [Object.prototype]: the first five of the entries of the
    counter rearranged in descending order of count, entries of equal count
    staying in the order [Object.entries] lists them. *)
Lemma top_problemas_sorted (l : list AdminPanel.Survey) :
  Forall (fun t => JS.inherited t = false) (flat_map AdminPanel.problemas l) ->
  exists sorted,
    AdminPanel.topProblemas l = firstn 5 sorted
    /\ Permutation sorted (JS.entries (AdminPanel.problemasStats (AdminPanel.statistics l)))
    /\ StronglySorted descending sorted
    /\ (forall n, filter (sameCount n) sorted
                  = filter (sameCount n)
                      (JS.entries (AdminPanel.problemasStats (AdminPanel.statistics l))))
    /\ List.length (AdminPanel.topProblemas l) <= 5.
Proof.
  intros Hks. unfold AdminPanel.topProblemas, JS.slice0.
  destruct (statistics_counters l) as (_ & _ & ->).
  set (o := fold_left JS.bump (flat_map AdminPanel.problemas l) []).
  assert (Hn : numeric (JS.entries o) = true).
  { rewrite (numeric_perm _ _ (entries_perm o)).
    apply (bumps_numeric _ [] eq_refl Hks). }
  exists (JS.sort JS.byCountDesc (JS.entries o)). repeat split.
  - apply sort_perm.
  - apply sort_descending, Hn.
  - intros n. apply sort_sameCount, Hn.
  - apply firstn_le_length.
Qed.

(** C3 at [constructorDocuments]: the bucket of [constructor], reported
    twice, holds text instead of a number; the comparator yields [NaN]
    against it and zero between the two other entries, so the sort moves
    nothing and the problem reported most is listed second, after one
    reported once. *)
Theorem top_problemas_with_constructor :
  occurrences "constructor" (allTags constructorDocuments) = 2
  /\ occurrences "robo" (allTags constructorDocuments) = 1
  /\ JS.entries (AdminPanel.problemasStats
       (AdminPanel.statistics (map AdminPanel.fetchedSurvey constructorDocuments)))
     = [("robo", JS.VNum 1); ("constructor", JS.VText "constructor" 2);
        ("iluminacion", JS.VNum 1)]
  /\ AdminPanel.topProblemas (map AdminPanel.fetchedSurvey constructorDocuments)
     = [("robo", JS.VNum 1); ("constructor", JS.VText "constructor" 2);
        ("iluminacion", JS.VNum 1)]
  /\ ~ StronglySorted descending
         (AdminPanel.topProblemas (map AdminPanel.fetchedSurvey constructorDocuments)).
Proof.
  repeat split; try (vm_compute; reflexivity).
  intros Hs.
  replace (AdminPanel.topProblemas (map AdminPanel.fetchedSurvey constructorDocuments))
    with [("robo", JS.VNum 1); ("constructor", JS.VText "constructor" 2);
          ("iluminacion", JS.VNum 1)] in Hs by (vm_compute; reflexivity).
  apply StronglySorted_inv in Hs as [Hs _].
  apply StronglySorted_inv in Hs as [_ Hall].
  inversion Hall as [|? ? Hd _]; subst.
  unfold descending in Hd. cbn in Hd. lia.
Qed.

(** *** Instances *)

Lemma problemas_round_trip_witness :
  AdminPanel.problemas
    (AdminPanel.fetchedSurvey
       (document "w1" (Some "no") (Some "iluminacion, robo") (Some "4")))
  = ["iluminacion"; "robo"].
Proof.
  apply (problemas_round_trip
           (SurveyForm.mkFormData "Ana" "12" "" "no" ["iluminacion"; "robo"] "" "4")
           "3/11/2025" "10:15:00").
  - apply Forall_forall. intros t [<-|[<-|[]]]; cbn; auto 10.
  - reflexivity.
Defined.

Lemma export_of_nothing_witness :
  AdminPanel.exportResults (AdminPanel.mkState [] None false)
  = (AdminPanel.mkState [] (Some (AdminPanel.mkAlert AdminPanel.warning
                                    "❌ No hay datos para exportar.")) false,
     []).
Proof.
  apply (export_of_nothing (AdminPanel.mkState [] None false)). reflexivity.
Defined.

Lemma login_wrong_password_witness :
  Server.login oneAdmin (Server.mkLoginBody "admin" "otra")
  = Server.mkResponse 401 (Server.Mensaje "Credenciales incorrectas").
Proof.
  apply (login_wrong_password oneAdmin (Server.mkLoginBody "admin" "otra")
           (Server.mkUser "admin" "admin@mercado.bo" "secreto" "3/11/2025")).
  - reflexivity.
  - now left.
  - reflexivity.
  - intros u [<-|[]] _. cbn. discriminate.
Defined.

Lemma average_rating_witness :
  AdminPanel.promedioCalificacion (map AdminPanel.fetchedSurvey scenario)
  = AdminPanel.ShownText "4.0".
Proof.
  refine (eq_trans (proj1 (average_rating scenario _ _ _)) _).
  - repeat constructor; vm_compute; discriminate.
  - vm_compute. discriminate.
  - vm_compute. reflexivity.
  - vm_compute. reflexivity.
Defined.

Lemma issue_counts_witness :
  JS.own (AdminPanel.problemasStats
            (AdminPanel.statistics (map AdminPanel.fetchedSurvey scenario))) "robo"
    = Some (JS.VNum 2)
  /\ totalCount (JS.entries (AdminPanel.problemasStats
       (AdminPanel.statistics (map AdminPanel.fetchedSurvey scenario)))) = 3.
Proof.
  assert (H : Forall (fun t => JS.inherited t = false) (allTags scenario))
    by (repeat constructor).
  destruct (issue_counts scenario H) as (_ & Hown & Htotal).
  split; [exact (Hown "robo")|exact Htotal].
Defined.

(* ================================================================= *)
(** ** Further properties *)

(** *** The form *)

Lemma filter_others_absent (value : string) (l : list string) :
  ~ In value l -> filter (fun p => negb (String.eqb p value)) l = l.
Proof.
  induction l as [|t l IH]; intros Hnot; cbn [filter]; [reflexivity|].
  destruct (String.eqb_spec t value) as [->|_].
  - elim Hnot. now left.
  - cbn [negb]. rewrite IH; [reflexivity|]. intros H. apply Hnot. now right.
Qed.

(** Toggling a check box keeps the selection free of duplicates, puts the
    value in when checked and takes it out when unchecked, and touches no
    other value; a change to checked comes from a box shown unchecked,
    that is, from a value not yet selected. *)
Theorem checkbox_keeps_selection_distinct
    (value : string) (checked : bool) (prev : SurveyForm.FormData) :
  NoDup (SurveyForm.problemas prev) ->
  (checked = true -> ~ In value (SurveyForm.problemas prev)) ->
  NoDup (SurveyForm.problemas
           (SurveyFormHandlers.handleChange
              (SurveyFormHandlers.CheckboxChange value checked) prev))
  /\ (In value (SurveyForm.problemas
                  (SurveyFormHandlers.handleChange
                     (SurveyFormHandlers.CheckboxChange value checked) prev))
      <-> checked = true)
  /\ (forall t, t <> value ->
        (In t (SurveyForm.problemas
                 (SurveyFormHandlers.handleChange
                    (SurveyFormHandlers.CheckboxChange value checked) prev))
         <-> In t (SurveyForm.problemas prev))).
Proof.
  intros Hnd Hfresh. cbn [SurveyFormHandlers.handleChange].
  unfold SurveyForm.handleChange_checkbox. cbn [SurveyForm.problemas].
  destruct checked.
  - split; [|split].
    + apply NoDup_app; [exact Hnd|repeat constructor; intros []|].
      intros a Ha [<-|[]]. exact (Hfresh eq_refl Ha).
    + split; [reflexivity|]. intros _. apply in_or_app. right. now left.
    + intros t Ht. split.
      * intros H. apply in_app_or in H as [H|[H|[]]]; [exact H|congruence].
      * intros H. apply in_or_app. now left.
  - split; [|split].
    + apply NoDup_filter, Hnd.
    + split; [|discriminate]. intros H. apply filter_In in H as [_ H].
      rewrite String.eqb_refl in H. discriminate.
    + intros t Ht. split.
      * intros H. apply filter_In in H as [H _]. exact H.
      * intros H. apply filter_In. split; [exact H|].
        apply negb_true_iff, String.eqb_neq. assumption.
Qed.

(** Checking a value that was not selected and unchecking it again gives
    the form back as it was. *)
Theorem check_then_uncheck (value : string) (prev : SurveyForm.FormData) :
  ~ In value (SurveyForm.problemas prev) ->
  SurveyFormHandlers.handleChange (SurveyFormHandlers.CheckboxChange value false)
    (SurveyFormHandlers.handleChange (SurveyFormHandlers.CheckboxChange value true) prev)
  = prev.
Proof.
  intros Hnot. destruct prev as [n p t s l g c].
  cbn [SurveyFormHandlers.handleChange]. unfold SurveyForm.handleChange_checkbox.
  cbn [SurveyForm.problemas SurveyForm.nombre SurveyForm.puesto SurveyForm.telefono
       SurveyForm.seguridad SurveyForm.sugerencia SurveyForm.calificacion] in *.
  f_equal. rewrite filter_app. cbn [filter]. rewrite String.eqb_refl. cbn [negb].
  rewrite app_nil_r. apply filter_others_absent, Hnot.
Qed.

(** With the store reached and a parent callback that returns, a submit
    appends one document holding the fields of the form as typed (the
    selection joined), leaves the users alone, empties the form, thanks
    the respondent by name with the message of the server, and hands the
    same data to the parent. *)
Theorem submit_stores_and_resets
    (st : SurveyFormHandlers.State) (d : Server.DB)
    (fecha hora newId : string) (now : Server.Date) :
  Server.failure d = None ->
  Panel.submit st d fecha hora newId now None
  = (SurveyFormHandlers.mkState SurveyFormHandlers.emptyForm
       (Some (AdminPanel.mkAlert AdminPanel.success
          ("✅ Respuesta guardada correctamente <br/><small>Gracias por su participación, "
           ++ SurveyForm.nombre (SurveyFormHandlers.formData st) ++ "</small>")))
       false,
     Server.mkDB
       (Server.respuestas d
        ++ [storedForm (SurveyFormHandlers.formData st) fecha hora newId now])
       (Server.users d) None,
     [SurveyFormHandlers.HttpPost "https://tu-backend.onrender.com/api/respuestas"
        (SurveyForm.surveyData (SurveyFormHandlers.formData st) fecha hora);
      SurveyFormHandlers.OnSurveySubmit
        (SurveyForm.surveyData (SurveyFormHandlers.formData st) fecha hora)]).
Proof.
  intros Hd. unfold Panel.submit, Server.postRespuestas, Server.save.
  rewrite Hd. reflexivity.
Qed.

(** When the store rejects, a submit stores nothing and keeps what was
    typed; the alert carries the error text of the route and nothing is
    handed to the parent. *)
Theorem submit_to_failing_store
    (st : SurveyFormHandlers.State) (d : Server.DB)
    (fecha hora newId : string) (now : Server.Date) (callback : option string)
    (m : string) :
  Server.failure d = Some m ->
  Panel.submit st d fecha hora newId now callback
  = (SurveyFormHandlers.mkState (SurveyFormHandlers.formData st)
       (Some (SurveyFormHandlers.dangerAlert "Error al guardar la respuesta")) false,
     d,
     [SurveyFormHandlers.HttpPost "https://tu-backend.onrender.com/api/respuestas"
        (SurveyForm.surveyData (SurveyFormHandlers.formData st) fecha hora);
      SurveyFormHandlers.ConsoleError "Error al enviar la encuesta:"
        "Request failed with status code 500"]).
Proof.
  intros Hd. unfold Panel.submit, Server.postRespuestas, Server.save.
  rewrite Hd. reflexivity.
Qed.

(** When the parent callback throws after the document was stored, the
    form is already emptied and the document stays in the store, yet the
    alert reports a failure with the message of the thrown error. *)
Theorem submit_with_throwing_callback
    (st : SurveyFormHandlers.State) (d : Server.DB)
    (fecha hora newId : string) (now : Server.Date) (m : string) :
  Server.failure d = None ->
  let '(st', d', effects) := Panel.submit st d fecha hora newId now (Some m) in
  SurveyFormHandlers.formData st' = SurveyFormHandlers.emptyForm
  /\ SurveyFormHandlers.alert st' = Some (SurveyFormHandlers.dangerAlert m)
  /\ Server.respuestas d'
     = (Server.respuestas d
        ++ [storedForm (SurveyFormHandlers.formData st) fecha hora newId now])%list
  /\ In (SurveyFormHandlers.ConsoleError "Error al enviar la encuesta:" m) effects.
Proof.
  intros Hd. unfold Panel.submit, Server.postRespuestas, Server.save.
  rewrite Hd. cbn. repeat split. right. right. now left.
Qed.

(** What the panel shows for a form after submit and refresh: the survey
    comes last, under the identifier given by the store, with the name and
    the answer as typed, the selected problems when they are of the
    vocabulary, and for an empty stall, telephone, suggestion or rating the
    default of the panel. *)
Theorem submitted_form_in_panel
    (st : SurveyFormHandlers.State) (pst : AdminPanel.State) (d : Server.DB)
    (fecha hora newId : string) (now : Server.Date) :
  Server.failure d = None ->
  Forall (fun t => In t SurveyForm.vocabulary)
         (SurveyForm.problemas (SurveyFormHandlers.formData st)) ->
  let form := SurveyFormHandlers.formData st in
  let '(_, d', _) := Panel.submit st d fecha hora newId now None in
  AdminPanel.surveys (System.ui (System.refresh (System.mkWorld pst d')))
  = (map AdminPanel.fetchedSurvey (Server.respuestas d)
     ++ [AdminPanel.mkSurvey newId
           (orDefault fecha (Server.toLocaleDateString now))
           (orDefault hora (Server.toLocaleTimeString now))
           (Some (SurveyForm.nombre form))
           (orDefault (SurveyForm.puesto form) "No especificado")
           (orDefault (SurveyForm.telefono form) "No proporcionado")
           (Some (SurveyForm.seguridad form))
           (SurveyForm.problemas form)
           (Some (orDefault (SurveyForm.sugerencia form) "Ninguna sugerencia"))
           (orDefault (SurveyForm.calificacion form) "3")
           true])%list.
Proof.
  intros Hd Hvoc form. unfold Panel.submit, Server.postRespuestas, Server.save.
  rewrite Hd. cbn [fst snd].
  match goal with |- context [SurveyFormHandlers.handleSubmit ?a ?b ?c ?e ?f] =>
    destruct (SurveyFormHandlers.handleSubmit a b c e f) as [st' effects] end.
  rewrite (proj1 (refresh_surveys _)). cbn [System.db].
  unfold Server.find. cbn [Server.failure Server.respuestas].
  rewrite map_app. cbn [map]. f_equal. f_equal.
  unfold AdminPanel.fetchedSurvey.
  cbn [System.bodyOf SurveyForm.surveyData Server._id Server.fecha Server.hora
       Server.nombre Server.puesto Server.telefono Server.seguridad Server.problemas
       Server.sugerencia Server.calificacion Server.createdAt
       Server.b_nombre Server.b_puesto Server.b_telefono Server.b_seguridad
       Server.b_problemas Server.b_sugerencia Server.b_calificacion Server.b_fecha
       Server.b_hora SurveyForm.sd_nombre SurveyForm.sd_puesto SurveyForm.sd_telefono
       SurveyForm.sd_seguridad SurveyForm.sd_problemas SurveyForm.sd_sugerencia
       SurveyForm.sd_calificacion SurveyForm.sd_fecha SurveyForm.sd_hora].
  assert (Htags : (if JS.truthy (Some (JS.join SurveyForm.separator (SurveyForm.problemas form)))
                   then JS.split ", " (JS.toString (Some (JS.join SurveyForm.separator
                                                            (SurveyForm.problemas form))))
                   else []) = SurveyForm.problemas form).
  { pose (item := document "x" None
                    (Some (JS.join ", " (SurveyForm.problemas form))) None).
    exact (fetched_tags_of_join (SurveyForm.problemas form) item Hvoc eq_refl). }
  fold form. rewrite Htags.
  f_equal; unfold JS.orElse, orDefault;
    repeat match goal with |- context [match ?x with EmptyString => _ | String _ _ => _ end] =>
      destruct x end; reflexivity.
Qed.

Section Registration.

Variable validationMessage : Register.RegisterBody -> string.
Variable duplicateMessage : Server.DB -> Register.RegisterBody -> string.

Lemma taken_spec (db : Server.DB) (u e : string) :
  Register.taken db u e = false <->
  (~ In u (map Server.usuario (Server.users db))
   /\ ~ In e (map Server.email (Server.users db))).
Proof.
  unfold Register.taken. induction (Server.users db) as [|x l IH]; cbn [existsb map In].
  - tauto.
  - rewrite orb_false_iff, orb_false_iff, IH, !String.eqb_neq. tauto.
Qed.

(** The outcome of a registration, case by case, with what it does to the
    store. *)
Lemma register_cases (env : JS.jsstring) (db : Server.DB)
    (b : Register.RegisterBody) (today : string) :
  (Register.strictEq (Register.token b) env = false
   /\ Register.register validationMessage duplicateMessage env db b today
      = (db, Server.mkResponse 403 (Server.Mensaje "Token de autorización inválido")))
  \/ (Register.strictEq (Register.token b) env = true /\ complete b = false
      /\ Register.register validationMessage duplicateMessage env db b today
         = (db, Server.mkResponse 500
                  (Server.ErrorDetails "Error al registrar administrador"
                     (validationMessage b))))
  \/ (Register.strictEq (Register.token b) env = true /\ complete b = true
      /\ exists m, Server.failure db = Some m
         /\ Register.register validationMessage duplicateMessage env db b today
            = (db, Server.mkResponse 500
                     (Server.ErrorDetails "Error al registrar administrador" m)))
  \/ (Register.strictEq (Register.token b) env = true /\ complete b = true
      /\ Server.failure db = None
      /\ Register.taken db (JS.toString (Register.usuario b))
           (JS.toString (Register.email b)) = true
      /\ Register.register validationMessage duplicateMessage env db b today
         = (db, Server.mkResponse 409 (Server.Mensaje "Usuario o email ya existen")))
  \/ (Register.strictEq (Register.token b) env = true /\ complete b = true
      /\ Server.failure db = None
      /\ Register.taken db (JS.toString (Register.usuario b))
           (JS.toString (Register.email b)) = false
      /\ Register.register validationMessage duplicateMessage env db b today
         = (Server.mkDB (Server.respuestas db)
              (Server.users db
               ++ [Server.mkUser (JS.toString (Register.usuario b))
                     (JS.toString (Register.email b))
                     (JS.toString (Register.password b)) today])
              None,
            Server.mkResponse 201 (Server.Mensaje "Administrador registrado exitosamente"))).
Proof.
  unfold Register.register, complete.
  destruct (Register.strictEq (Register.token b) env); cbn [negb]; [|now left].
  right. unfold Register.saveUser.
  destruct (Register.usuario b) as [[|c1 u]|]; cbn [JS.truthy andb];
    try (left; repeat split; reflexivity).
  destruct (Register.email b) as [[|c2 e]|]; cbn [JS.truthy andb];
    try (left; repeat split; reflexivity).
  destruct (Register.password b) as [[|c3 p]|]; cbn [JS.truthy andb];
    try (left; repeat split; reflexivity).
  right. destruct (Server.failure db) as [m|] eqn:Hf.
  - left. repeat split. exists m. split; reflexivity.
  - right. cbn [JS.toString].
    destruct (Register.taken db (String c1 u) (String c2 e)) eqn:Ht.
    + left. repeat split.
    + right. repeat split.
Qed.

(** A registration is answered 201 exactly when the token sent is the one
    of the environment (an unset one matching an absent one), the three
    paths are filled, the store is reached and neither the name nor the
    address is taken. *)
Theorem register_created_iff (env : JS.jsstring) (db : Server.DB)
    (b : Register.RegisterBody) (today : string) :
  Server.status (snd (Register.register validationMessage duplicateMessage env db b today))
    = 201
  <-> (Register.strictEq (Register.token b) env = true
       /\ complete b = true
       /\ Server.failure db = None
       /\ ~ In (JS.toString (Register.usuario b)) (map Server.usuario (Server.users db))
       /\ ~ In (JS.toString (Register.email b)) (map Server.email (Server.users db))).
Proof.
  rewrite <- taken_spec.
  destruct (register_cases env db b today)
    as [(Ht & ->)|[(Ht & Hc & ->)|[(Ht & Hc & m & Hf & ->)|[(Ht & Hc & Hf & Hk & ->)|(Ht & Hc & Hf & Hk & ->)]]]];
    cbn [snd Server.status]; split; try discriminate; try tauto;
    intros (H1 & H2 & H3 & H4); congruence.
Qed.

(** A registration never touches the survey documents nor the users
    already stored: it leaves the store as it is, except that a 201 comes
    with one more user, last, made of the body and the date. *)
Theorem register_only_appends (env : JS.jsstring) (db : Server.DB)
    (b : Register.RegisterBody) (today : string) :
  let '(db', resp) := Register.register validationMessage duplicateMessage env db b today in
  (Server.status resp <> 201 /\ db' = db)
  \/ (Server.status resp = 201
      /\ Server.respuestas db' = Server.respuestas db
      /\ Server.users db'
         = (Server.users db
            ++ [Server.mkUser (JS.toString (Register.usuario b))
                  (JS.toString (Register.email b))
                  (JS.toString (Register.password b)) today])%list).
Proof.
  destruct (register_cases env db b today)
    as [(Ht & ->)|[(Ht & Hc & ->)|[(Ht & Hc & m & Hf & ->)|[(Ht & Hc & Hf & Hk & ->)|(Ht & Hc & Hf & Hk & ->)]]]];
    cbn [Server.status Server.respuestas Server.users];
    try (left; split; [discriminate|reflexivity]).
  right. repeat split.
Qed.

(** Registrations keep the names and the addresses of the users unique. *)
Theorem register_keeps_users_unique (env : JS.jsstring) (db : Server.DB)
    (b : Register.RegisterBody) (today : string) :
  uniqueUsers db ->
  uniqueUsers (fst (Register.register validationMessage duplicateMessage env db b today)).
Proof.
  intros [Hu He].
  destruct (register_cases env db b today)
    as [(Ht & ->)|[(Ht & Hc & ->)|[(Ht & Hc & m & Hf & ->)|[(Ht & Hc & Hf & Hk & ->)|(Ht & Hc & Hf & Hk & ->)]]]];
    cbn [fst]; try (split; assumption).
  apply taken_spec in Hk as [Hnu Hne].
  unfold uniqueUsers. cbn [Server.users]. rewrite !map_app. cbn [map Server.usuario Server.email].
  split; (apply NoDup_app; [assumption|repeat constructor; intros []|]).
  - intros a Ha [<-|[]]. exact (Hnu Ha).
  - intros a Ha [<-|[]]. exact (Hne Ha).
Qed.

(** With the token accepted, the paths filled and the store reached, a
    name or an address that is taken is answered 409, not 500, and nothing
    is stored. *)
Theorem register_duplicate (env : JS.jsstring) (db : Server.DB)
    (b : Register.RegisterBody) (today : string) :
  Register.strictEq (Register.token b) env = true ->
  complete b = true ->
  Server.failure db = None ->
  In (JS.toString (Register.usuario b)) (map Server.usuario (Server.users db))
  \/ In (JS.toString (Register.email b)) (map Server.email (Server.users db)) ->
  Register.register validationMessage duplicateMessage env db b today
  = (db, Server.mkResponse 409 (Server.Mensaje "Usuario o email ya existen")).
Proof.
  intros Ht Hc Hf Hin.
  destruct (register_cases env db b today)
    as [(Ht' & _)|[(_ & Hc' & _)|[(_ & _ & m & Hf' & _)|[(_ & _ & _ & _ & ->)|(_ & _ & _ & Hk & _)]]]];
    try congruence.
  apply taken_spec in Hk. tauto.
Qed.

Lemma find_appended (l : list Server.User) (u : Server.User) :
  ~ In (Server.usuario u) (map Server.usuario l) ->
  List.find (fun x => String.eqb (Server.usuario x) (Server.usuario u)) (l ++ [u])
  = Some u.
Proof.
  induction l as [|x l IH]; cbn [List.find app map In]; intros Hn.
  - now rewrite String.eqb_refl.
  - destruct (String.eqb_spec (Server.usuario x) (Server.usuario u)) as [E|_].
    + elim Hn. now left.
    + apply IH. tauto.
Qed.

(** After a registration answered 201, a login with the name and the
    password just registered is answered 200 with that name and address,
    and a login with the name and any other password is answered 401. *)
Theorem register_then_login (env : JS.jsstring) (db : Server.DB)
    (b : Register.RegisterBody) (today : string) (other : string) :
  Server.status (snd (Register.register validationMessage duplicateMessage env db b today))
    = 201 ->
  other <> JS.toString (Register.password b) ->
  Server.login (fst (Register.register validationMessage duplicateMessage env db b today))
    (Server.mkLoginBody (JS.toString (Register.usuario b))
       (JS.toString (Register.password b)))
  = Server.mkResponse 200
      (Server.MensajeUser "Login exitoso" (JS.toString (Register.usuario b))
         (JS.toString (Register.email b)))
  /\ Server.login (fst (Register.register validationMessage duplicateMessage env db b today))
       (Server.mkLoginBody (JS.toString (Register.usuario b)) other)
     = Server.mkResponse 401 (Server.Mensaje "Credenciales incorrectas").
Proof.
  intros Hs Hother.
  destruct (register_cases env db b today)
    as [(Ht & E)|[(Ht & Hc & E)|[(Ht & Hc & m & Hf & E)|[(Ht & Hc & Hf & Hk & E)|(Ht & Hc & Hf & Hk & E)]]]];
    rewrite E in Hs |- *; cbn [snd Server.status] in Hs; try discriminate.
  apply taken_spec in Hk as [Hnu _].
  unfold Server.login, Server.findOne.
  cbn [fst Server.failure Server.users Server.l_usuario Server.l_password].
  set (u := Server.mkUser _ _ _ today).
  change (JS.toString (Register.usuario b)) with (Server.usuario u) at 1 3.
  rewrite (find_appended _ u Hnu).
  cbn [Server.password Server.usuario Server.email u].
  rewrite String.eqb_refl. cbn [negb]. split; [reflexivity|].
  apply not_eq_sym, String.eqb_neq in Hother. now rewrite Hother.
Qed.

End Registration.

(** *** Login and the survey routes *)



(** A login that is not answered 200 does not tell why: with the store
    reached, an unknown name and a wrong password get the very same 401;
    with the store failing, every login gets the same 500, whatever the
    credentials. *)
Theorem login_refusals_are_uniform (db : Server.DB) (req : Server.LoginBody) :
  Server.status (Server.login db req) <> 200 ->
  Server.login db req
  = match Server.failure db with
    | None => Server.mkResponse 401 (Server.Mensaje "Credenciales incorrectas")
    | Some _ => Server.mkResponse 500 (Server.Error "Error en el servidor")
    end.
Proof.
  unfold Server.login, Server.findOne.
  destruct (Server.failure db); [reflexivity|].
  destruct (List.find _ (Server.users db)) as [u|]; [|reflexivity].
  destruct (String.eqb (Server.password u) (Server.l_password req)); cbn [negb];
    [|reflexivity].
  cbn [Server.status]. congruence.
Qed.

(** A document posted to a store that is reached is what the collection
    route returns afterwards, last, after the documents that were there,
    with the nine fields as sent. *)
Theorem post_then_get (db : Server.DB) (b : Server.RespuestaBody)
    (newId : string) (now : Server.Date) :
  Server.failure db = None ->
  Server.status (snd (Server.postRespuestas db b newId now)) = 201
  /\ Server.getRespuestas (fst (Server.postRespuestas db b newId now))
     = Server.mkResponse 200
         (Server.Documents
            (Server.respuestas db
             ++ [Server.mkRespuesta newId (Server.b_nombre b) (Server.b_puesto b)
                   (Server.b_telefono b) (Server.b_seguridad b) (Server.b_problemas b)
                   (Server.b_sugerencia b) (Server.b_calificacion b) (Server.b_fecha b)
                   (Server.b_hora b) now]))
  /\ Server.users (fst (Server.postRespuestas db b newId now)) = Server.users db.
Proof.
  intros Hf. unfold Server.postRespuestas, Server.save, Server.getRespuestas, Server.find.
  rewrite Hf. cbn. repeat split.
Qed.

(** While the store rejects with a message, posting stores nothing and
    both survey routes answer 500 with that message as details. *)
Theorem survey_routes_on_failing_store (db : Server.DB) (b : Server.RespuestaBody)
    (newId m : string) (now : Server.Date) :
  Server.failure db = Some m ->
  Server.postRespuestas db b newId now
  = (db, Server.mkResponse 500 (Server.ErrorDetails "Error al guardar la respuesta" m))
  /\ Server.getRespuestas db
     = Server.mkResponse 500 (Server.ErrorDetails "Error al obtener respuestas" m).
Proof.
  intros Hf. unfold Server.postRespuestas, Server.save, Server.getRespuestas, Server.find.
  rewrite Hf. split; reflexivity.
Qed.

(** *** The cards *)

Lemma split_from_nonempty (sep : string) (k : nat) (s : string) :
  JS.split_from sep k s <> [].
Proof.
  revert k. induction s as [|c s IH]; intros k; cbn [JS.split_from]; [discriminate|].
  destruct k; [|apply IH].
  destruct (prefix sep (String c s)); [discriminate|].
  destruct (JS.split_from sep 0 s); discriminate.
Qed.

Lemma concat_cons_head (sep : string) (c : ascii) (t : string) (ts : list string) :
  String.concat sep (String c t :: ts) = String c (String.concat sep (t :: ts)).
Proof. destruct ts; reflexivity. Qed.

Lemma concat_cons_more (sep x y : string) (r : list string) :
  String.concat sep (x :: y :: r) = x ++ sep ++ String.concat sep (y :: r).
Proof. reflexivity. Qed.

Lemma join_split_upto (n : nat) (s : string) :
  String.length s <= n -> JS.join ", " (JS.split ", " s) = s.
Proof.
  unfold JS.join, JS.split. revert s.
  induction n as [n IH] using lt_wf_ind. intros s Hlen.
  destruct s as [|c s]; [reflexivity|]. cbn [JS.split_from].
  rewrite prefix_separator.
  destruct (Ascii.eqb_spec c ",") as [->|Hc]; cbn [andb].
  - destruct s as [|d s].
    + reflexivity.
    + destruct (Ascii.eqb_spec d " ") as [->|Hd].
      * cbn [String.length Nat.sub JS.split_from].
        pose proof (split_from_nonempty ", " 0 s) as Hne.
        destruct (JS.split_from ", " 0 s) as [|t ts] eqn:Hs; [congruence|].
        rewrite concat_cons_more, <- Hs.
        rewrite (IH (String.length s)); [reflexivity|cbn in Hlen; lia|lia].
      * pose proof (split_from_nonempty ", " 0 (String d s)) as Hne.
        destruct (JS.split_from ", " 0 (String d s)) as [|t ts] eqn:Hs; [congruence|].
        rewrite concat_cons_head, <- Hs.
        rewrite (IH (String.length (String d s))); [reflexivity|cbn in *; lia|lia].
  - pose proof (split_from_nonempty ", " 0 s) as Hne.
    destruct (JS.split_from ", " 0 s) as [|t ts] eqn:Hs; [congruence|].
    rewrite concat_cons_head, <- Hs.
    rewrite (IH (String.length s)); [reflexivity|cbn in *; lia|lia].
Qed.

(** Splitting a string at the separator and joining the tokens with the
    separator gives the string back, whatever it holds. *)
Lemma join_split (s : string) : JS.join ", " (JS.split ", " s) = s.
Proof. apply (join_split_upto (String.length s)). lia. Qed.

(** The card of a survey loaded from the store shows the problems exactly
    as the string that is stored, whatever that string is, and [Ninguno]
    for an absent or empty one. *)
Theorem card_shows_stored_problemas (item : Server.Respuesta) :
  Panel.problemasText (AdminPanel.fetchedSurvey item)
  = match Server.problemas item with
    | Some (String c s) => String c s
    | Some EmptyString | None => "Ninguno"
    end.
Proof.
  unfold Panel.problemasText, AdminPanel.fetchedSurvey. cbn [AdminPanel.problemas].
  destruct (Server.problemas item) as [[|c s]|]; cbn [JS.truthy JS.toString];
    try reflexivity.
  pose proof (split_from_nonempty ", " 0 (String c s)) as Hne.
  unfold JS.split at 1.
  destruct (JS.split_from ", " 0 (String c s)) as [|t ts] eqn:Hs; [congruence|].
  cbn [List.length Nat.ltb Nat.leb].
  unfold JS.split. rewrite Hs, <- Hs. exact (join_split (String c s)).
Qed.

(** *** The export *)

Lemma prefix_T (c : ascii) (s : string) : prefix "T" (String c s) = Ascii.eqb c "T".
Proof.
  cbn [prefix]. destruct (ascii_dec "T" c) as [<-|Hc].
  - rewrite Ascii.eqb_refl. destruct s; reflexivity.
  - symmetry. apply Ascii.eqb_neq. congruence.
Qed.

Lemma first_token_before_T (date rest : string) :
  occurs "T" date = false ->
  hd "" (JS.split "T" (date ++ "T" ++ rest)) = date.
Proof.
  unfold JS.split. induction date as [|c date IH]; intros Hocc.
  - change (EmptyString ++ "T" ++ rest) with (String "T" rest).
    cbn [JS.split_from]. rewrite prefix_T. reflexivity.
  - cbn [occurs] in Hocc. apply orb_false_iff in Hocc as [Hp Ho].
    change (String c date ++ "T" ++ rest) with (String c (date ++ "T" ++ rest)).
    cbn [JS.split_from]. rewrite prefix_T in *. rewrite Hp.
    specialize (IH Ho).
    destruct (JS.split_from "T" 0 (date ++ "T" ++ rest)) as [|t ts]; cbn [hd] in *;
      now rewrite IH.
Qed.

(** When the timer of an export fires at an instant whose ISO rendering
    has the date before the first [T], exactly one file is saved: it is
    named after that date, typed as CSV, and holds the header followed by
    the rows of the captured surveys; the alert counts those surveys. *)
Theorem export_file (captured : list AdminPanel.Survey) (date rest : string)
    (st : AdminPanel.State) :
  occurs "T" date = false ->
  AdminPanel.exportCallback captured (date ++ "T" ++ rest) st
  = (AdminPanel.mkState (AdminPanel.surveys st)
       (Some (AdminPanel.mkAlert AdminPanel.success
          ("💾 ¡Archivo exportado correctamente! <br/><small>"
           ++ JS.digits (Z.of_nat (List.length captured))
           ++ " encuestas exportadas en formato CSV.</small>")))
       (AdminPanel.loading st),
     [AdminPanel.SaveFile
        (AdminPanel.mkFile ("encuestas-seguridad-mercado-" ++ date ++ ".csv")
           "text/csv;charset=utf-8;"
           (AdminPanel.csvHeader ++ String.concat "" (map AdminPanel.csvRow captured)))]).
Proof.
  intros Hd. unfold AdminPanel.exportCallback.
  rewrite (first_token_before_T _ _ Hd), csvText_rows. reflexivity.
Qed.

(** An export started with surveys in memory saves nothing at once; if the
    list is cleared before the timer fires, the file saved then still holds
    the surveys of the moment the export was started, and the alert counts
    them, although the list in memory is empty. *)
Theorem export_after_clear (st : AdminPanel.State) (iso : string) :
  AdminPanel.surveys st <> [] ->
  let '(st1, started) := AdminPanel.exportResults st in
  let '(st2, _) := AdminPanel.clearResults true st1 in
  let '(st3, saved) := Panel.fire iso started st2 in
  (forall f, ~ In (AdminPanel.SaveFile f) started)
  /\ AdminPanel.surveys st2 = []
  /\ AdminPanel.surveys st3 = []
  /\ map (fun e => match e with
                   | AdminPanel.SaveFile f => AdminPanel.content f
                   | _ => ""
                   end) saved
     = [AdminPanel.csvText (AdminPanel.surveys st)]
  /\ AdminPanel.alert st3
     = Some (AdminPanel.mkAlert AdminPanel.success
          ("💾 ¡Archivo exportado correctamente! <br/><small>"
           ++ JS.digits (Z.of_nat (List.length (AdminPanel.surveys st)))
           ++ " encuestas exportadas en formato CSV.</small>")).
Proof.
  intros Hne. unfold AdminPanel.exportResults.
  destruct (AdminPanel.surveys st) as [|e l] eqn:Hs; [congruence|].
  cbn [List.length Nat.eqb]. cbn. repeat split.
  intros f [H|[]]. discriminate H.
Qed.

(** *** Loading *)

Lemma orElse_filled (v : JS.jsstring) (c : ascii) (d : string) :
  JS.orElse v (String c d) <> "".
Proof. destruct v as [[|x s]|]; discriminate. Qed.

(** A fetch that succeeds replaces the list in memory by one survey per
    document, in the order and under the identifiers of the store; each
    carries a stall, a telephone, a suggestion and a rating that are not
    empty, whatever the store holds; the alert counts the documents. *)
Theorem fetch_replaces_and_fills (st : AdminPanel.State) (data : list Server.Respuesta) :
  let '(st', effects) := AdminPanel.fetchSurveys st (AdminPanel.Fulfilled data) in
  map AdminPanel.id (AdminPanel.surveys st') = map Server._id data
  /\ Forall filled (AdminPanel.surveys st')
  /\ AdminPanel.loading st' = false
  /\ AdminPanel.alert st'
     = Some (AdminPanel.mkAlert AdminPanel.success
          ("✅ Datos del servidor cargados correctamente. <br/><small>"
           ++ JS.digits (Z.of_nat (List.length data))
           ++ " encuestas encontradas.</small>")).
Proof.
  cbn. repeat split.
  - now rewrite map_map.
  - apply Forall_forall. intros e He. apply in_map_iff in He as (item & <- & _).
    unfold filled, AdminPanel.fetchedSurvey.
    cbn [AdminPanel.puesto AdminPanel.telefono AdminPanel.sugerencia
         AdminPanel.calificacion AdminPanel.synced].
    repeat split; try apply orElse_filled.
    destruct (Server.sugerencia item) as [[|x s]|]; reflexivity.
  - unfold AdminPanel.showLength. now rewrite length_map.
Qed.

(** Refreshing twice in a row shows what refreshing once shows, whether
    the store answers or not. *)
Theorem refresh_idempotent (w : System.World) :
  System.refresh (System.refresh w) = System.refresh w.
Proof.
  destruct w as [st d]. unfold System.refresh, Server.getRespuestas.
  cbn [System.ui System.db].
  destruct (Server.find d) as [docs|m] eqn:Hf; cbn; rewrite Hf; reflexivity.
Qed.

(** *** The average and the order of the surveys *)

Lemma sumOver_perm (f : string -> Z) (ks ks' : list string) :
  Permutation ks ks' -> sumOver f ks = sumOver f ks'.
Proof.
  induction 1; unfold sumOver in *; cbn [fold_right]; lia.
Qed.

(** The average shown does not depend on the order in which the surveys
    are held, as long as every rating has an integer and the magnitudes
    add up to at most [2^53]. *)
Theorem average_order_independent (l l' : list AdminPanel.Survey) :
  Permutation l l' ->
  Forall (fun k => JS.parseInt k <> JS.NaN) (map AdminPanel.calificacion l) ->
  (sumOver magnitude (map AdminPanel.calificacion l) <= 2 ^ 53)%Z ->
  AdminPanel.promedioCalificacion l = AdminPanel.promedioCalificacion l'.
Proof.
  intros Hperm Hp Hb.
  pose proof (Permutation_map AdminPanel.calificacion Hperm) as Hk.
  unfold AdminPanel.promedioCalificacion.
  rewrite <- (Permutation_length Hperm).
  rewrite (total_of_parsable l Hp Hb).
  rewrite (total_of_parsable l').
  - now rewrite (sumOver_perm _ _ _ Hk).
  - exact (Permutation_Forall Hk Hp).
  - now rewrite <- (sumOver_perm _ _ _ Hk).
Qed.

Lemma form_rating (k : string) :
  In k formRatings ->
  JS.parseInt k <> JS.NaN /\ (1 <= parsed k <= 5)%Z /\ magnitude k = parsed k.
Proof.
  unfold formRatings. cbn [In].
  intros [<-|[<-|[<-|[<-|[<-|[]]]]]]; repeat split; try discriminate;
    vm_compute; congruence.
Qed.

Lemma sumOver_form_ratings (ks : list string) :
  Forall (fun k => In k formRatings) ks ->
  Forall (fun k => JS.parseInt k <> JS.NaN) ks
  /\ (Z.of_nat (List.length ks) <= sumOver parsed ks <= 5 * Z.of_nat (List.length ks))%Z
  /\ sumOver magnitude ks = sumOver parsed ks.
Proof.
  induction 1 as [|k ks Hk _ (IHp & IHb & IHm)]; cbn [sumOver fold_right List.length].
  - repeat split; [constructor|lia|lia].
  - fold (sumOver parsed ks) (sumOver magnitude ks).
    destruct (form_rating k Hk) as (Hp & Hb & Hm).
    repeat split; [now constructor|lia|lia|lia].
Qed.

(** When every survey carries one of the five ratings of the form, the
    average shown is a number of tenths from [1.0] to [5.0], written with
    one decimal. *)
Theorem average_of_form_ratings (l : list AdminPanel.Survey) :
  l <> [] ->
  Forall (fun e => In (AdminPanel.calificacion e) formRatings) l ->
  (Z.of_nat (List.length l) < 2 ^ 32)%Z ->
  exists q : Z,
    (10 <= q <= 50)%Z
    /\ AdminPanel.promedioCalificacion l = AdminPanel.ShownText (oneDecimal q).
Proof.
  intros Hne Hall Hlen.
  assert (Hks : Forall (fun k => In k formRatings) (map AdminPanel.calificacion l))
    by (apply Forall_map; exact Hall).
  destruct (sumOver_form_ratings _ Hks) as (Hp & Hb & Hm).
  rewrite length_map in Hb.
  unfold AdminPanel.promedioCalificacion.
  destruct l as [|e l]; [congruence|].
  set (s := e :: l) in *.
  replace (0 <? List.length s)%nat with true by reflexivity.
  rewrite (total_of_parsable s Hp) by lia.
  destruct (toFixed1_nearest (sumOver parsed (map AdminPanel.calificacion s))
              (Z.of_nat (List.length s))) as (q & Hq & Hnear & Heq).
  - lia.
  - unfold s in *. cbn [List.length] in *. lia.
  - exists q. split.
    + assert (0 < Z.of_nat (List.length s))%Z by (unfold s; cbn [List.length]; lia).
      nia.
    + rewrite Heq. unfold signText.
      destruct (Z.ltb_spec (sumOver parsed (map AdminPanel.calificacion s)) 0);
        [lia|reflexivity].
Qed.

(** *** The stars *)

(** The stars of a card throw exactly when the rating has an integer that
    is negative or beyond the longest string; a rating without integer
    gives no star and any other rating one star per unit. *)
Theorem stars_throw_iff (maxLength : Z) (e : AdminPanel.Survey) :
  (Panel.stars maxLength e = Panel.RangeError
   <-> exists n, JS.parseInt (AdminPanel.calificacion e) = JS.Num n
                 /\ (n < 0 \/ maxLength < n)%Z)
  /\ (JS.parseInt (AdminPanel.calificacion e) = JS.NaN ->
      Panel.stars maxLength e = Panel.Returned "")
  /\ (forall n, JS.parseInt (AdminPanel.calificacion e) = JS.Num n ->
        (0 <= n <= maxLength)%Z ->
        Panel.stars maxLength e = Panel.Returned (Panel.copies (Z.to_nat n) "⭐")).
Proof.
  unfold Panel.stars, Panel.repeat.
  destruct (JS.parseInt (AdminPanel.calificacion e)) as [|n].
  - split; [|split]; [|reflexivity|discriminate].
    split; [discriminate|]. intros (n & H & _). discriminate H.
  - split; [|split]; [|discriminate|].
    + destruct (Z.ltb_spec n 0); [|destruct (Z.ltb_spec maxLength n)].
      * split; [|reflexivity]. intros _. exists n. split; [reflexivity|lia].
      * split; [|reflexivity]. intros _. exists n. split; [reflexivity|lia].
      * split; [discriminate|]. intros (k & Hk & Hb). injection Hk as <-. lia.
    + intros k Hk Hb. injection Hk as <-.
      destruct (Z.ltb_spec n 0); [lia|]. destruct (Z.ltb_spec maxLength n); [lia|].
      reflexivity.
Qed.

(** *** Escaping *)

(** An escaped suggestion reads back as the suggestion, and every double
    quote in it stands in a pair, so the closing quote of the cell cannot
    be mistaken. *)
Theorem escapeQuotes_reads_back (s : string) :
  undoubled (JS.escapeQuotes s) = s /\ pairedQuotes (JS.escapeQuotes s) = true.
Proof.
  induction s as [|c s [IHu IHp]]; [split; reflexivity|].
  cbn [JS.escapeQuotes]. destruct (Ascii.eqb c JS.dq) eqn:Hc.
  - apply Ascii.eqb_eq in Hc. subst c. split.
    + cbn [undoubled]. rewrite Ascii.eqb_refl. cbn [andb]. now rewrite IHu.
    + cbn [pairedQuotes]. rewrite Ascii.eqb_refl. cbn [andb]. exact IHp.
  - split.
    + cbn [undoubled]. destruct (JS.escapeQuotes s) as [|d r] eqn:He.
      * cbn in IHu. now rewrite <- IHu.
      * rewrite Hc. cbn [andb]. now rewrite IHu.
    + cbn [pairedQuotes]. rewrite Hc. exact IHp.
Qed.

(** *** Tags beyond the vocabulary *)

(** Any sequence of tags that do not contain the separator comes back from
    the store as it was sent, save one: the sequence of a single empty tag,
    which is stored as the empty string and comes back as no tag at all. *)
Theorem tags_round_trip (tags : list string) (item : Server.Respuesta) :
  Forall (fun t => occurs ", " t = false) tags ->
  Server.problemas item = Some (JS.join ", " tags) ->
  AdminPanel.problemas (AdminPanel.fetchedSurvey item)
  = match tags with
    | [EmptyString] => []
    | _ => tags
    end.
Proof.
  intros Hall Hitem. unfold AdminPanel.fetchedSurvey. cbn [AdminPanel.problemas].
  rewrite Hitem. destruct tags as [|t l]; [reflexivity|].
  assert (Hsplit : JS.split ", " (JS.join ", " (t :: l)) = t :: l)
    by (apply split_join; [discriminate|exact Hall]).
  destruct t as [|c t].
  - destruct l as [|u l]; [reflexivity|].
    cbn [JS.toString]. rewrite Hsplit. reflexivity.
  - rewrite join_truthy by discriminate. cbn [JS.toString]. exact Hsplit.
Qed.

(** *** What the list of problems always is *)

Lemma noteKey_NoDup (seen : list string) (k : string) :
  NoDup seen -> NoDup (noteKey seen k).
Proof.
  intros Hnd. unfold noteKey.
  destruct (existsb (String.eqb k) seen) eqn:He; [exact Hnd|].
  apply NoDup_app; [exact Hnd|repeat constructor; intros []|].
  intros a Ha [E|[]]. subst a.
  assert (existsb (String.eqb k) seen = true)
    by (apply existsb_exists; exists k; split; [exact Ha|apply String.eqb_refl]).
  congruence.
Qed.

Lemma bumps_keys_NoDup (ks : list string) (o : JS.object) :
  NoDup (map fst o) -> NoDup (map fst (fold_left JS.bump ks o)).
Proof.
  revert o. induction ks as [|k ks IH]; intros o Hnd; cbn [fold_left]; [exact Hnd|].
  apply IH. unfold JS.bump, JS.assign.
  destruct (String.eqb k "__proto__"); [exact Hnd|].
  rewrite keys_put. apply noteKey_NoDup, Hnd.
Qed.

(** Whatever the surveys hold, the list of most frequent problems has at
    most five entries, names no problem twice, and names only problems
    that some survey reports. *)
Theorem top_problemas_always (l : list AdminPanel.Survey) :
  List.length (AdminPanel.topProblemas l) <= 5
  /\ NoDup (map fst (AdminPanel.topProblemas l))
  /\ forall tag, In tag (map fst (AdminPanel.topProblemas l)) ->
                 In tag (flat_map AdminPanel.problemas l).
Proof.
  unfold AdminPanel.topProblemas, JS.slice0.
  destruct (statistics_counters l) as (_ & _ & ->).
  set (o := fold_left JS.bump (flat_map AdminPanel.problemas l) []).
  set (sorted := JS.sort JS.byCountDesc (JS.entries o)).
  assert (Hperm : Permutation sorted o).
  { unfold sorted. rewrite sort_perm. apply entries_perm. }
  assert (Hnd : NoDup (map fst sorted)).
  { eapply Permutation_NoDup; [symmetry; apply Permutation_map, Hperm|].
    apply bumps_keys_NoDup. constructor. }
  split; [apply firstn_le_length|]. split.
  - rewrite <- (firstn_skipn 5 sorted), map_app in Hnd.
    exact (NoDup_app_remove_r _ _ Hnd).
  - intros tag Hin. apply in_map_iff in Hin as (p & <- & Hp).
    assert (Hs : In p sorted).
    { rewrite <- (firstn_skipn 5 sorted). apply in_or_app. now left. }
    apply (Permutation_in _ Hperm) in Hs.
    destruct (key_of_bumps _ _ _ Hs) as [Hk|[]]. exact Hk.
Qed.

(** *** A store that rejects *)

Section FailingStore.

Variable validationMessage : Register.RegisterBody -> string.
Variable duplicateMessage : Server.DB -> Register.RegisterBody -> string.

(** While the store rejects, no route stores anything: the two survey
    routes and the login answer 500, and a registration answers 403 or
    500. *)
Theorem failing_store_stores_nothing (db : Server.DB) (m : string)
    (b : Server.RespuestaBody) (newId : string) (now : Server.Date)
    (req : Server.LoginBody) (env : JS.jsstring) (rb : Register.RegisterBody)
    (today : string) :
  Server.failure db = Some m ->
  Server.postRespuestas db b newId now
    = (db, Server.mkResponse 500 (Server.ErrorDetails "Error al guardar la respuesta" m))
  /\ Server.getRespuestas db
     = Server.mkResponse 500 (Server.ErrorDetails "Error al obtener respuestas" m)
  /\ Server.login db req = Server.mkResponse 500 (Server.Error "Error en el servidor")
  /\ fst (Register.register validationMessage duplicateMessage env db rb today) = db
  /\ (Server.status (snd (Register.register validationMessage duplicateMessage
                            env db rb today)) = 403
      \/ Server.status (snd (Register.register validationMessage duplicateMessage
                               env db rb today)) = 500).
Proof.
  intros Hf. unfold Server.postRespuestas, Server.save, Server.getRespuestas,
    Server.find, Server.login, Server.findOne, Register.register, Register.saveUser.
  rewrite Hf. repeat split.
  - destruct (Register.strictEq (Register.token rb) env); [|reflexivity].
    destruct (Register.usuario rb) as [[|? ?]|], (Register.email rb) as [[|? ?]|],
      (Register.password rb) as [[|? ?]|]; reflexivity.
  - destruct (Register.strictEq (Register.token rb) env); [|now left].
    right.
    destruct (Register.usuario rb) as [[|? ?]|], (Register.email rb) as [[|? ?]|],
      (Register.password rb) as [[|? ?]|]; reflexivity.
Qed.

End FailingStore.


(** *** Loading the server *)

Lemma lookup_uninitialised (scope initialised : list string) (x : string) :
  In x scope -> ~ In x initialised ->
  Startup.lookup scope initialised x = Some (Startup.BeforeInitialization x).
Proof.
  intros Hs Hi. unfold Startup.lookup, Startup.mem.
  destruct (existsb (String.eqb x) initialised) eqn:E.
  - apply existsb_exists in E as (y & Hy & Hxy).
    apply String.eqb_eq in Hxy. subst y. contradiction.
  - replace (existsb (String.eqb x) scope) with true; [reflexivity|].
    symmetry. apply existsb_exists. exists x. split; [assumption|apply String.eqb_refl].
Qed.

Lemma firstThrown_some (scope initialised xs : list string) (x : string) :
  In x xs -> In x scope -> ~ In x initialised ->
  exists e, Startup.firstThrown scope initialised xs = Some e.
Proof.
  intros Hx Hs Hi. induction xs as [|y xs IH]; [destruct Hx|].
  cbn [Startup.firstThrown].
  destruct (Startup.lookup scope initialised y) as [e|] eqn:E; [now exists e|].
  destruct Hx as [->|Hx]; [|now apply IH].
  rewrite (lookup_uninitialised _ _ _ Hs Hi) in E. discriminate.
Qed.

(** A statement that evaluates a [const] which only this or a later
    statement initialises is never passed: the run throws there or before,
    having done nothing of that statement or of those after it. *)
Lemma run_early_use (scope : list string) (before after : list Startup.Statement)
    (s : Startup.Statement) (x : string) (initialised : list string)
    (done : list Startup.Action) :
  In x (Startup.reads s) -> In x scope ->
  ~ In x initialised -> ~ In x (Startup.declared before) ->
  exists e l done',
    Startup.run scope (before ++ s :: after) initialised done = Startup.Threw e l done'
    /\ forall a, In a done' -> In a done \/ In a (flat_map Startup.does before).
Proof.
  intros Hx Hs. revert initialised done.
  induction before as [|b before IH]; intros initialised done Hi Hb.
  - cbn [app Startup.run].
    destruct (firstThrown_some scope initialised _ x Hx Hs Hi) as [e He].
    rewrite He. exists e, (Startup.line s), done. split; [reflexivity|]. now left.
  - cbn [app Startup.run].
    destruct (Startup.firstThrown scope initialised (Startup.reads b)) as [e|].
    + exists e, (Startup.line b), done. split; [reflexivity|]. now left.
    + unfold Startup.declared in Hb. cbn [flat_map] in Hb.
      fold (Startup.declared before) in Hb.
      destruct (IH (match Startup.declares b with
                    | Some y => y :: initialised
                    | None => initialised
                    end) (done ++ Startup.does b)%list) as (e & l & done' & Hr & Hd).
      * destruct (Startup.declares b) as [y|]; [|assumption].
        intros [->|H]; [|contradiction]. apply Hb. now left.
      * intros H. apply Hb. apply in_or_app. now right.
      * exists e, l, done'. split; [assumption|].
        intros a Ha. destruct (Hd a Ha) as [H|H].
        -- apply in_app_or in H as [H|H]; [now left|].
           right. cbn [flat_map]. apply in_or_app. now left.
        -- right. cbn [flat_map]. apply in_or_app. now right.
Qed.

(** server.js, startup: loading the module throws a [ReferenceError] at
    line 4, where [app] is evaluated although its [const] is initialised
    only at line 9.  Nothing was done by then: no middleware is installed,
    no connection is opened, no route is registered, and the server never
    listens, whatever the environment holds. *)
Theorem server_js_throws_on_load (env : Startup.Env) :
  Startup.load (Startup.server_js env)
  = Startup.Threw (Startup.BeforeInitialization "app") 4 [].
Proof. reflexivity. Qed.

(** Line 4 is the only statement that stops the load: the others install
    the two middlewares, open the connection, define the two models,
    register the four routes and listen. *)
Lemma server_js_other_statements (env : Startup.Env) :
  Startup.load (filter (fun s => negb (Startup.line s =? 4)%nat) (Startup.server_js env))
  = Startup.Loaded
      [Startup.Config; Startup.Use "cors"; Startup.Use "json";
       Startup.Connect (Startup.MONGODB_URI env);
       Startup.Model "Respuesta"; Startup.Model "User";
       Startup.Route "POST" "/api/respuestas"; Startup.Route "GET" "/api/respuestas";
       Startup.Route "POST" "/api/login"; Startup.Route "POST" "/api/register";
       Startup.Listen (Startup.port env)].
Proof. reflexivity. Qed.

(** *** Instances of the further properties *)

Lemma checkbox_keeps_selection_distinct_witness :
  NoDup (SurveyForm.problemas
           (SurveyFormHandlers.handleChange
              (SurveyFormHandlers.CheckboxChange "iluminacion" true) sampleForm)).
Proof.
  refine (proj1 (checkbox_keeps_selection_distinct "iluminacion" true sampleForm _ _)).
  - repeat constructor. intros [].
  - intros _ [H|[]]. discriminate H.
Defined.

Lemma check_then_uncheck_witness :
  SurveyFormHandlers.handleChange (SurveyFormHandlers.CheckboxChange "iluminacion" false)
    (SurveyFormHandlers.handleChange
       (SurveyFormHandlers.CheckboxChange "iluminacion" true) sampleForm)
  = sampleForm.
Proof.
  apply (check_then_uncheck "iluminacion" sampleForm).
  intros [H|[]]. discriminate H.
Defined.

Lemma submit_stores_and_resets_witness :
  Server.respuestas
    (snd (fst (Panel.submit sampleFormState emptyStore "3/11/2025" "10:15:00" "f1"
                 sampleDate None)))
  = [storedForm sampleForm "3/11/2025" "10:15:00" "f1" sampleDate].
Proof.
  rewrite (submit_stores_and_resets sampleFormState emptyStore "3/11/2025" "10:15:00"
             "f1" sampleDate eq_refl).
  reflexivity.
Defined.

Lemma submit_to_failing_store_witness :
  SurveyFormHandlers.formData
    (fst (fst (Panel.submit sampleFormState failingStore "3/11/2025" "10:15:00" "f1"
                 sampleDate None)))
  = sampleForm.
Proof.
  rewrite (submit_to_failing_store sampleFormState failingStore "3/11/2025" "10:15:00"
             "f1" sampleDate None "ECONNREFUSED" eq_refl).
  reflexivity.
Defined.

Lemma submit_with_throwing_callback_witness :
  let '(st', d', effects) :=
    Panel.submit sampleFormState emptyStore "3/11/2025" "10:15:00" "f1" sampleDate
      (Some "onSurveySubmit is not a function") in
  SurveyFormHandlers.formData st' = SurveyFormHandlers.emptyForm
  /\ SurveyFormHandlers.alert st'
     = Some (SurveyFormHandlers.dangerAlert "onSurveySubmit is not a function")
  /\ Server.respuestas d'
     = (Server.respuestas emptyStore
        ++ [storedForm (SurveyFormHandlers.formData sampleFormState)
              "3/11/2025" "10:15:00" "f1" sampleDate])%list
  /\ In (SurveyFormHandlers.ConsoleError "Error al enviar la encuesta:"
           "onSurveySubmit is not a function") effects.
Proof.
  exact (submit_with_throwing_callback sampleFormState emptyStore "3/11/2025" "10:15:00"
           "f1" sampleDate "onSurveySubmit is not a function" eq_refl).
Defined.

Lemma submitted_form_in_panel_witness :
  map AdminPanel.telefono
    (AdminPanel.surveys
       (System.ui (System.refresh (System.mkWorld samplePanel
          (snd (fst (Panel.submit sampleFormState emptyStore "3/11/2025" "10:15:00"
                       "f1" sampleDate None)))))))
  = ["No proporcionado"].
Proof.
  pose proof (submitted_form_in_panel sampleFormState samplePanel emptyStore
                "3/11/2025" "10:15:00" "f1" sampleDate eq_refl) as H.
  cbv zeta in H.
  destruct (Panel.submit sampleFormState emptyStore "3/11/2025" "10:15:00" "f1"
              sampleDate None) as [[st' d'] effects].
  cbn [fst snd]. rewrite H; [reflexivity|].
  repeat constructor.
Defined.

Lemma register_keeps_users_unique_witness :
  uniqueUsers (fst (Register.register sampleValidationMessage sampleDuplicateMessage
                      (Some "clave") oneAdmin sampleRegistration "3/11/2025")).
Proof.
  apply (register_keeps_users_unique sampleValidationMessage sampleDuplicateMessage).
  split; repeat constructor; intros [].
Defined.

Lemma register_duplicate_witness :
  Register.register sampleValidationMessage sampleDuplicateMessage
    (Some "clave") oneAdmin repeatedRegistration "3/11/2025"
  = (oneAdmin, Server.mkResponse 409 (Server.Mensaje "Usuario o email ya existen")).
Proof.
  apply (register_duplicate sampleValidationMessage sampleDuplicateMessage);
    try reflexivity.
  left. left. reflexivity.
Defined.

Lemma register_then_login_witness :
  Server.login
    (fst (Register.register sampleValidationMessage sampleDuplicateMessage
            (Some "clave") oneAdmin sampleRegistration "3/11/2025"))
    (Server.mkLoginBody "nuevo" "secreto2")
  = Server.mkResponse 200 (Server.MensajeUser "Login exitoso" "nuevo" "nuevo@mercado.bo").
Proof.
  refine (proj1 (register_then_login sampleValidationMessage sampleDuplicateMessage
                   (Some "clave") oneAdmin sampleRegistration "3/11/2025" "otra" _ _)).
  - reflexivity.
  - cbn. discriminate.
Defined.


Lemma login_refusals_are_uniform_witness :
  Server.login oneAdmin (Server.mkLoginBody "nadie" "secreto")
  = Server.mkResponse 401 (Server.Mensaje "Credenciales incorrectas").
Proof.
  apply (login_refusals_are_uniform oneAdmin (Server.mkLoginBody "nadie" "secreto")).
  cbn. discriminate.
Defined.

Lemma post_then_get_witness :
  Server.status
    (snd (Server.postRespuestas emptyStore
            (System.bodyOf (SurveyForm.surveyData sampleForm "3/11/2025" "10:15:00"))
            "f1" sampleDate))
  = 201.
Proof.
  refine (proj1 (post_then_get emptyStore _ "f1" sampleDate _)). reflexivity.
Defined.

Lemma failing_store_stores_nothing_witness :
  Server.login failingStore (Server.mkLoginBody "admin" "secreto")
  = Server.mkResponse 500 (Server.Error "Error en el servidor").
Proof.
  refine (proj1 (proj2 (proj2
    (failing_store_stores_nothing sampleValidationMessage sampleDuplicateMessage
       failingStore "ECONNREFUSED"
       (System.bodyOf (SurveyForm.surveyData sampleForm "3/11/2025" "10:15:00"))
       "f1" sampleDate (Server.mkLoginBody "admin" "secreto")
       (Some "clave") sampleRegistration "3/11/2025" _)))).
  reflexivity.
Defined.

Lemma export_file_witness :
  map (fun e => match e with
                | AdminPanel.SaveFile f => AdminPanel.download f
                | _ => ""
                end)
      (snd (AdminPanel.exportCallback sampleSurveys
              ("2025-11-03" ++ "T" ++ "14:15:00.000Z") samplePanel))
  = ["encuestas-seguridad-mercado-2025-11-03.csv"].
Proof.
  rewrite (export_file sampleSurveys "2025-11-03" "14:15:00.000Z" samplePanel eq_refl).
  reflexivity.
Defined.

Lemma export_after_clear_witness :
  let '(st1, started) := AdminPanel.exportResults samplePanel in
  let '(st2, _) := AdminPanel.clearResults true st1 in
  let '(st3, saved) := Panel.fire "2025-11-03T14:15:00.000Z" started st2 in
  (forall f, ~ In (AdminPanel.SaveFile f) started)
  /\ AdminPanel.surveys st2 = []
  /\ AdminPanel.surveys st3 = []
  /\ map (fun e => match e with
                   | AdminPanel.SaveFile f => AdminPanel.content f
                   | _ => ""
                   end) saved
     = [AdminPanel.csvText (AdminPanel.surveys samplePanel)]
  /\ AdminPanel.alert st3
     = Some (AdminPanel.mkAlert AdminPanel.success
          ("💾 ¡Archivo exportado correctamente! <br/><small>"
           ++ JS.digits (Z.of_nat (List.length (AdminPanel.surveys samplePanel)))
           ++ " encuestas exportadas en formato CSV.</small>")).
Proof.
  apply (export_after_clear samplePanel "2025-11-03T14:15:00.000Z"). discriminate.
Defined.

Lemma average_order_independent_witness :
  AdminPanel.promedioCalificacion sampleSurveys
  = AdminPanel.promedioCalificacion (rev sampleSurveys).
Proof.
  apply (average_order_independent sampleSurveys (rev sampleSurveys)).
  - apply Permutation_rev.
  - repeat constructor; vm_compute; discriminate.
  - vm_compute. discriminate.
Defined.

Lemma average_of_form_ratings_witness :
  exists q : Z,
    (10 <= q <= 50)%Z
    /\ AdminPanel.promedioCalificacion sampleSurveys = AdminPanel.ShownText (oneDecimal q).
Proof.
  apply (average_of_form_ratings sampleSurveys).
  - discriminate.
  - unfold sampleSurveys, scenario. cbn [map].
    repeat (apply Forall_cons || apply Forall_nil); cbn; auto 10.
  - vm_compute. reflexivity.
Defined.

Lemma tags_round_trip_witness :
  AdminPanel.problemas
    (AdminPanel.fetchedSurvey
       (document "w2" (Some "no") (Some "ruido, , perros sueltos") (Some "2")))
  = ["ruido"; ""; "perros sueltos"].
Proof.
  apply (tags_round_trip ["ruido"; ""; "perros sueltos"]).
  - repeat constructor.
  - reflexivity.
Defined.

Lemma top_problemas_sorted_witness :
  exists sorted,
    AdminPanel.topProblemas sampleSurveys = firstn 5 sorted
    /\ Permutation sorted
         (JS.entries (AdminPanel.problemasStats (AdminPanel.statistics sampleSurveys)))
    /\ StronglySorted descending sorted
    /\ (forall n, filter (sameCount n) sorted
                  = filter (sameCount n)
                      (JS.entries (AdminPanel.problemasStats
                                     (AdminPanel.statistics sampleSurveys))))
    /\ List.length (AdminPanel.topProblemas sampleSurveys) <= 5.
Proof.
  apply (top_problemas_sorted sampleSurveys). repeat constructor.
Defined.

Lemma counters_add_up_witness :
  totalCount (JS.entries (AdminPanel.seguridadStats (AdminPanel.statistics sampleSurveys)))
    = 3
  /\ totalCount (JS.entries (AdminPanel.calificacionStats
                               (AdminPanel.statistics sampleSurveys)))
    = 3.
Proof.
  apply (counters_add_up sampleSurveys); repeat constructor.
Defined.

Lemma entries_in_encounter_order_witness :
  map fst (JS.entries (fold_left JS.bump ["robo"; "iluminacion"; "robo"] []))
  = ["robo"; "iluminacion"].
Proof.
  apply (entries_in_encounter_order ["robo"; "iluminacion"; "robo"]);
    repeat constructor.
Defined.
